(** * datetime-mcp-server: the formatting engine of [src/index.ts]

    A shallow embedding of the server's request handler
    ([get_current_time], [get_timestamp]), of [formatDateTime] and of
    [formatCustomDate], together with the part of the ECMAScript runtime
    they call ([Date], [Math.floor], [Number.prototype.toString],
    [String.prototype.replace], [Intl.DateTimeFormat]).

    Conventions.
    - An instant is the time value of a JS [Date]: an integer number of
      milliseconds since the epoch, at most 8.64e15 in magnitude, here a
      [Z].  The handler only ever builds [new Date()], so the time value
      is never NaN.
    - JS numbers that occur are integers below 2^53 in magnitude.  The one
      division, [getTime() / 1000], is followed by [Math.floor]; the pair
      is taken as the floor of the exact quotient, [Z.div] (on time
      values a quotient that is not an integer stays more than one unit
      in the last place away from the next integer).
    - Strings are [string]; the tokens and everything substituted for them
      are ASCII.
    - A call that can throw returns a [Completion]. *)

From Stdlib Require Import ZArith String Ascii List Lia Bool.
From Stdlib Require Import DecimalString DecimalZ DecimalPos.
From stdpp Require Import gmap strings.

Local Open Scope string_scope.
Local Open Scope Z_scope.

(** ** Completions: a normal value or a thrown error with its message *)

Inductive Completion (A : Type) : Type :=
| Normal (a : A)
| Throw (message : string).
Arguments Normal {A} a.
Arguments Throw {A} message.

Definition bindC {A B} (c : Completion A) (k : A -> Completion B) : Completion B :=
  match c with
  | Normal a => k a
  | Throw m => Throw m
  end.

(** ** JS built-ins on numbers and strings *)

Module JS.

(** [Number.prototype.toString] on an integer of magnitude below 1e21:
    the decimal digits, with a leading minus sign when negative. *)
Definition toString (n : Z) : string :=
  NilZero.string_of_int (Z.to_int n).

(** The inverse reading of a decimal numeral, as [Number(s)] does on the
    strings [toString] produces. *)
Definition parseDecimal (s : string) : option Z :=
  option_map Z.of_int (NilZero.int_of_string s).

(** [Math.floor (n / d)] for integers [n] and [d > 0]. *)
Definition floorDiv (n d : Z) : Z := n / d.

(** [a || b] on strings: the empty string is falsy. *)
Definition or_else (a : option string) (b : string) : string :=
  match a with
  | Some (String c r) => String c r
  | Some EmptyString | None => b
  end.

(** [s.slice(-2)]: the last two characters, or all of [s] when it is
    shorter. *)
Definition slice_last2 (s : string) : string :=
  let n := String.length s in
  substring (n - 2) 2 s.

(** [s.startsWith(tok)]. *)
Fixpoint startsWith (tok s : string) : bool :=
  match tok, s with
  | EmptyString, _ => true
  | String a tok', String c s' => Ascii.eqb a c && startsWith tok' s'
  | String _ _, EmptyString => false
  end.

(** [s.replace(/tok/g, rep)] for a literal, non-empty pattern [tok] and a
    replacement text [rep] without [$]: one scan from the left; where
    [tok] matches, [rep] is emitted and the scan resumes after the match
    ([skip] counts the characters of the match still to pass over);
    elsewhere the character is copied. *)
Fixpoint replaceFrom (tok rep : string) (skip : nat) (s : string) : string :=
  match s with
  | EmptyString => EmptyString
  | String c r =>
      match skip with
      | S k => replaceFrom tok rep k r
      | O =>
          if startsWith tok s
          then rep +:+ replaceFrom tok rep (String.length tok - 1) r
          else String c (replaceFrom tok rep O r)
      end
  end.

Definition replaceAll (tok rep s : string) : string :=
  replaceFrom tok rep O s.

(** [String(n).padStart(w, "0")] for [n >= 0]. *)
Fixpoint zeros (k : nat) : string :=
  match k with
  | O => EmptyString
  | S k' => String "0" (zeros k')
  end.

Definition padStart0 (w : nat) (s : string) : string :=
  zeros (w - String.length s) +:+ s.

End JS.

(** ** Date arithmetic of ECMA-262 (section "Time Values and Time Range") *)

Module Calendar.

Definition msPerSecond : Z := 1000.
Definition msPerMinute : Z := 60000.
Definition msPerHour : Z := 3600000.
Definition msPerDay : Z := 86400000.

Definition Day (t : Z) : Z := t / msPerDay.

Definition isLeap (y : Z) : bool :=
  (y mod 4 =? 0) && (negb (y mod 100 =? 0) || (y mod 400 =? 0)).

Definition DaysInYear (y : Z) : Z := if isLeap y then 366 else 365.

Definition DayFromYear (y : Z) : Z :=
  365 * (y - 1970) + (y - 1969) / 4 - (y - 1901) / 100 + (y - 1601) / 400.

(** [YearFromTime]: the largest [y] with [DayFromYear y <= Day t].  The
    estimate from the mean length of a year is off by at most one. *)
Definition yearOfDay (d : Z) : Z :=
  let y := 1970 + (400 * d) / 146097 in
  if d <? DayFromYear y then y - 1
  else if DayFromYear (y + 1) <=? d then y + 1
  else y.

Definition YearFromTime (t : Z) : Z := yearOfDay (Day t).

Definition DayWithinYear (t : Z) : Z := Day t - DayFromYear (YearFromTime t).

Definition InLeapYear (t : Z) : Z := if isLeap (YearFromTime t) then 1 else 0.

(** Month number 0..11 and day of the month 1..31 from the day within
    the year [d] and the leap-year flag [l], by the table of ECMA-262. *)
Definition monthOf (d l : Z) : Z :=
  if d <? 31 then 0
  else if d <? 59 + l then 1
  else if d <? 90 + l then 2
  else if d <? 120 + l then 3
  else if d <? 151 + l then 4
  else if d <? 181 + l then 5
  else if d <? 212 + l then 6
  else if d <? 243 + l then 7
  else if d <? 273 + l then 8
  else if d <? 304 + l then 9
  else if d <? 334 + l then 10
  else 11.

(** First day within the year of month [m]. *)
Definition monthStart (m l : Z) : Z :=
  match m with
  | 0 => 0
  | 1 => 31
  | 2 => 59 + l
  | 3 => 90 + l
  | 4 => 120 + l
  | 5 => 151 + l
  | 6 => 181 + l
  | 7 => 212 + l
  | 8 => 243 + l
  | 9 => 273 + l
  | 10 => 304 + l
  | _ => 334 + l
  end.

Definition MonthFromTime (t : Z) : Z := monthOf (DayWithinYear t) (InLeapYear t).

Definition DateFromTime (t : Z) : Z :=
  DayWithinYear t - monthStart (MonthFromTime t) (InLeapYear t) + 1.

Definition WeekDay (t : Z) : Z := (Day t + 4) mod 7.

Definition HourFromTime (t : Z) : Z := (t / msPerHour) mod 24.
Definition MinFromTime (t : Z) : Z := (t / msPerMinute) mod 60.
Definition SecFromTime (t : Z) : Z := (t / msPerSecond) mod 60.
Definition msFromTime (t : Z) : Z := t mod msPerSecond.

(** [MakeDay]/[MakeDate] restricted to in-range fields: the time value
    of a calendar date and clock time at offset zero. *)
Definition MakeTime (h mi s ms : Z) : Z :=
  h * msPerHour + mi * msPerMinute + s * msPerSecond + ms.

Definition MakeDay (y m d : Z) : Z :=
  DayFromYear y + monthStart m (if isLeap y then 1 else 0) + d - 1.

Definition MakeDate (day time : Z) : Z := day * msPerDay + time.

End Calendar.

(** ** [Date.prototype] methods used by the server *)

Module Date_.
Import Calendar.

Definition getTime (t : Z) : Z := t.

Definition pad (w : nat) (n : Z) : string := JS.padStart0 w (JS.toString n).

(** The year of an ISO string: four digits for 0..9999, otherwise a sign
    and six digits. *)
Definition isoYear (y : Z) : string :=
  if (0 <=? y) && (y <=? 9999) then pad 4 y
  else (if y <? 0 then "-" else "+") +:+ pad 6 (Z.abs y).

Definition toISOString (t : Z) : string :=
  isoYear (YearFromTime t) +:+ "-" +:+ pad 2 (MonthFromTime t + 1) +:+ "-"
    +:+ pad 2 (DateFromTime t) +:+ "T" +:+ pad 2 (HourFromTime t) +:+ ":"
    +:+ pad 2 (MinFromTime t) +:+ ":" +:+ pad 2 (SecFromTime t) +:+ "."
    +:+ pad 3 (msFromTime t) +:+ "Z".

End Date_.

(** ** [Intl.DateTimeFormat], as far as the server uses it

    What the engine and its data decide is gathered in a [Runtime]: the
    time zone database, the message of the [RangeError] for an identifier
    it does not know, the host's own zone, the hour cycle that locale
    [en-US] gets under [hour12: false], and the separator the locale data
    put before AM/PM. *)

Module Intl.
Import Calendar.

(** The two hour cycles [hour12: false] can resolve to: [h23] counts
    00..23, [h24] counts 01..24 and writes midnight as 24.  ECMA-402 up
    to its 2023 edition resolves [hour12: false] to [h23] when the default
    cycle of the locale is [h11] or [h23] and to [h24] otherwise, and the
    default of [en-US] is [h12]; later editions resolve it to [h23]. *)
Inductive HourCycle := h23 | h24.

Record Runtime := {
  (** [None] for an identifier the database cannot resolve; otherwise
      the offset from UTC, in milliseconds, in force at an instant. *)
  timeZoneOffset : string -> option (Z -> Z);
  invalidTimeZoneMessage : string -> string;
  hostTimeZone : string;
  hourCycle24 : HourCycle;
  dayPeriodSeparator : string
}.

(** [Intl.DateTimeFormatOptions], with the fields the server sets. *)
Record Options := {
  timeZone : string;
  weekday : option string;
  year : option string;
  month : option string;
  day : option string;
  hour : option string;
  minute : option string;
  second : option string;
  hour12 : option bool
}.

Definition onlyTimeZone (tz : string) : Options :=
  {| timeZone := tz; weekday := None; year := None; month := None;
     day := None; hour := None; minute := None; second := None;
     hour12 := None |}.

Inductive Field :=
| FWeekday | FYear | FMonth | FDay | FHour | FMinute | FSecond | FDayPeriod.

Inductive Item :=
| Fld (f : Field)
| Lit (s : string).

Definition present {A} (o : option A) : bool :=
  match o with Some _ => true | None => false end.

(** The pattern of the locale for the requested fields.  [en-CA] writes
    a numeric date as year-month-day; [en-US] writes month/day/year, or
    "Jan 15, 2024" with a month name, the weekday first, then the time
    after a comma. *)
Definition datePattern (locale : string) (o : Options) : list Item :=
  if negb (present (year o) || present (month o) || present (day o)) then []
  else if String.eqb locale "en-CA" then
    [Fld FYear; Lit "-"; Fld FMonth; Lit "-"; Fld FDay]
  else
    (if present (weekday o) then [Fld FWeekday; Lit ", "] else []) ++
    (if String.eqb (default "" (month o)) "short"
     then [Fld FMonth; Lit " "; Fld FDay; Lit ", "; Fld FYear]
     else [Fld FMonth; Lit "/"; Fld FDay; Lit "/"; Fld FYear]).

Definition timePattern (rt : Runtime) (o : Options) : list Item :=
  if negb (present (hour o) || present (minute o) || present (second o)) then []
  else
    [Fld FHour; Lit ":"; Fld FMinute; Lit ":"; Fld FSecond] ++
    (if default false (hour12 o)
     then [Lit (dayPeriodSeparator rt); Fld FDayPeriod] else []).

Definition pattern (rt : Runtime) (locale : string) (o : Options) : list Item :=
  let d := datePattern locale o in
  let t := timePattern rt o in
  match d, t with
  | _ :: _, _ :: _ => d ++ [Lit ", "] ++ t
  | _, _ => d ++ t
  end.

Definition pad2 (n : Z) : string := JS.padStart0 2 (JS.toString n).

(** The Gregorian calendar counts years of an era: 1 BC is ISO year 0. *)
Definition yearOfEra (y : Z) : Z := if 0 <? y then y else 1 - y.

Definition weekdayShort (w : Z) : string :=
  match w with
  | 0 => "Sun" | 1 => "Mon" | 2 => "Tue" | 3 => "Wed"
  | 4 => "Thu" | 5 => "Fri" | _ => "Sat"
  end.

Definition monthShort (m : Z) : string :=
  match m with
  | 0 => "Jan" | 1 => "Feb" | 2 => "Mar" | 3 => "Apr" | 4 => "May"
  | 5 => "Jun" | 6 => "Jul" | 7 => "Aug" | 8 => "Sep" | 9 => "Oct"
  | 10 => "Nov" | _ => "Dec"
  end.

(** The hour of the day [h] (0..23) in the cycle in force. *)
Definition hourNumber (rt : Runtime) (o : Options) (h : Z) : Z :=
  if default false (hour12 o) then (if h mod 12 =? 0 then 12 else h mod 12)
  else match hourCycle24 rt with
       | h23 => h
       | h24 => if h =? 0 then 24 else h
       end.

Definition numeric (style : option string) (n : Z) : string :=
  if String.eqb (default "" style) "2-digit" then pad2 n else JS.toString n.

(** The text of a field at local time [lt] (the instant shifted by the
    zone's offset).  With an hour, minutes and seconds have two digits. *)
Definition fieldText (rt : Runtime) (o : Options) (lt : Z) (f : Field) : string :=
  match f with
  | FWeekday => weekdayShort (WeekDay lt)
  | FYear => JS.toString (yearOfEra (YearFromTime lt))
  | FMonth =>
      if String.eqb (default "" (month o)) "short"
      then monthShort (MonthFromTime lt)
      else numeric (month o) (MonthFromTime lt + 1)
  | FDay => numeric (day o) (DateFromTime lt)
  | FHour => numeric (hour o) (hourNumber rt o (HourFromTime lt))
  | FMinute => pad2 (MinFromTime lt)
  | FSecond => pad2 (SecFromTime lt)
  | FDayPeriod => if HourFromTime lt <? 12 then "AM" else "PM"
  end.

Definition fieldType (f : Field) : string :=
  match f with
  | FWeekday => "weekday" | FYear => "year" | FMonth => "month"
  | FDay => "day" | FHour => "hour" | FMinute => "minute"
  | FSecond => "second" | FDayPeriod => "dayPeriod"
  end.

(** A part as [formatToParts] returns it: [{ type, value }]. *)
Record Part := { type : string; value : string }.

Definition partOf (rt : Runtime) (o : Options) (lt : Z) (i : Item) : Part :=
  match i with
  | Fld f => {| type := fieldType f; value := fieldText rt o lt f |}
  | Lit s => {| type := "literal"; value := s |}
  end.

(** A constructed formatter: the constructor has resolved the zone. *)
Record DateTimeFormat := {
  fmtLocale : string;
  fmtOptions : Options;
  fmtOffset : Z -> Z
}.

(** [new Intl.DateTimeFormat(locale, options)]: throws a [RangeError]
    when [options.timeZone] is not in the database. *)
Definition construct (rt : Runtime) (locale : string) (o : Options)
  : Completion DateTimeFormat :=
  match timeZoneOffset rt (timeZone o) with
  | Some off => Normal {| fmtLocale := locale; fmtOptions := o; fmtOffset := off |}
  | None => Throw (invalidTimeZoneMessage rt (timeZone o))
  end.

Definition formatToParts (rt : Runtime) (f : DateTimeFormat) (date : Z) : list Part :=
  map (partOf rt (fmtOptions f) (date + fmtOffset f date))
      (pattern rt (fmtLocale f) (fmtOptions f)).

Definition format (rt : Runtime) (f : DateTimeFormat) (date : Z) : string :=
  fold_right (fun p acc => value p +:+ acc) "" (formatToParts rt f date).

(** [date.toLocaleString(locale, options)]; [toLocaleDateString] and
    [toLocaleTimeString] agree with it when the options name date
    fields, respectively time fields, as they do at every call site. *)
Definition toLocaleString (rt : Runtime) (date : Z) (locale : string) (o : Options)
  : Completion string :=
  bindC (construct rt locale o) (fun f => Normal (format rt f date)).

Definition toLocaleDateString := toLocaleString.
Definition toLocaleTimeString := toLocaleString.

End Intl.

(** ** The server: configuration, [formatDateTime], [formatCustomDate] and
    the handler of tool calls *)

Import Intl.

(** The three constants read from [process.env] at start-up. *)
Record Config := {
  DATETIME_FORMAT : string;
  DATE_FORMAT_STRING : string;
  TIMEZONE : string
}.

Definition loadConfig (rt : Runtime) (env : gmap string string) : Config :=
  {| DATETIME_FORMAT := JS.or_else (env !! "DATETIME_FORMAT") "iso";
     DATE_FORMAT_STRING := JS.or_else (env !! "DATE_FORMAT_STRING") "YYYY-MM-DD HH:mm:ss";
     TIMEZONE := JS.or_else (env !! "TIMEZONE") (hostTimeZone rt) |}.

(** [partsMap[part.type] = part.value] for each part in turn. *)
Definition collectParts (parts : list Part) : gmap string string :=
  fold_left (fun m p => <[type p := value p]> m) parts ∅.

(** [formatCustomDate]: the parts of an [en-US] formatter, collected by
    type, then the seven global replacements in the order of the source
    (the innermost call is the first). *)
Definition formatCustomDate (rt : Runtime) (date : Z) (formatString timezone : string)
  : Completion string :=
  let options :=
    {| timeZone := timezone; weekday := None;
       year := Some "numeric"; month := Some "2-digit"; day := Some "2-digit";
       hour := Some "2-digit"; minute := Some "2-digit"; second := Some "2-digit";
       hour12 := Some false |} in
  bindC (construct rt "en-US" options) (fun f =>
    let parts := formatToParts rt f date in
    let partsMap := collectParts parts in
    let get k := JS.or_else (partsMap !! k) "" in
    Normal
      (JS.replaceAll "ss" (get "second")
      (JS.replaceAll "mm" (get "minute")
      (JS.replaceAll "HH" (get "hour")
      (JS.replaceAll "DD" (get "day")
      (JS.replaceAll "MM" (get "month")
      (JS.replaceAll "YY" (JS.slice_last2 (get "year"))
      (JS.replaceAll "YYYY" (get "year") formatString)))))))).

(** [formatDateTime]: the [switch] on the selector; each local rendering
    extends the options that carry the zone. *)
Definition formatDateTime (rt : Runtime) (cfg : Config)
    (date : Z) (format timezone : string) : Completion string :=
  let options := onlyTimeZone timezone in
  if String.eqb format "iso" then
    Normal (Date_.toISOString date)
  else if String.eqb format "unix" then
    Normal (JS.toString (JS.floorDiv (Date_.getTime date) 1000))
  else if String.eqb format "unix_ms" then
    Normal (JS.toString (Date_.getTime date))
  else if String.eqb format "human" then
    toLocaleString rt date "en-US"
      {| timeZone := timeZone options; weekday := Some "short";
         year := Some "numeric"; month := Some "short"; day := Some "numeric";
         hour := Some "2-digit"; minute := Some "2-digit"; second := Some "2-digit";
         hour12 := Some true |}
  else if String.eqb format "date" then
    toLocaleDateString rt date "en-CA"
      {| timeZone := timeZone options; weekday := None;
         year := Some "numeric"; month := Some "2-digit"; day := Some "2-digit";
         hour := None; minute := None; second := None; hour12 := None |}
  else if String.eqb format "time" then
    toLocaleTimeString rt date "en-US"
      {| timeZone := timeZone options; weekday := None;
         year := None; month := None; day := None;
         hour := Some "2-digit"; minute := Some "2-digit"; second := Some "2-digit";
         hour12 := Some false |}
  else if String.eqb format "custom" then
    formatCustomDate rt date (DATE_FORMAT_STRING cfg) timezone
  else
    Normal (Date_.toISOString date).

(** The result of a tool call: one text item and the error flag (absent
    on success, here [false]). *)
Record ToolResult := { text : string; isError : bool }.

(** [(args as any)?.key]: [args] may be undefined, and so may the field;
    the input schema types [format], [timezone] and [unit] as strings. *)
Definition getArg (args : option (gmap string string)) (key : string) : option string :=
  match args with
  | Some a => a !! key
  | None => None
  end.

(** [const format = (args as any)?.format || DATETIME_FORMAT] and
    [const timezone = (args as any)?.timezone || TIMEZONE]. *)
Definition effectiveFormat (cfg : Config) (args : option (gmap string string)) : string :=
  JS.or_else (getArg args "format") (DATETIME_FORMAT cfg).

Definition effectiveTimezone (cfg : Config) (args : option (gmap string string)) : string :=
  JS.or_else (getArg args "timezone") (TIMEZONE cfg).

(** The [try]/[catch] around [formatDateTime]. *)
Definition caught (c : Completion string) : ToolResult :=
  match c with
  | Normal formattedDate => {| text := formattedDate; isError := false |}
  | Throw message =>
      {| text := "Error formatting date: " +:+ message; isError := true |}
  end.

(** The handler of [CallToolRequestSchema]; [now] is the [new Date()] it
    takes once per request. *)
Definition handleCallTool (rt : Runtime) (cfg : Config)
    (name : string) (args : option (gmap string string)) (now : Z) : ToolResult :=
  if String.eqb name "get_current_time" then
    let format := effectiveFormat cfg args in
    let timezone := effectiveTimezone cfg args in
    caught (formatDateTime rt cfg now format timezone)
  else if String.eqb name "get_timestamp" then
    let unit := JS.or_else (getArg args "unit") "seconds" in
    let timestamp :=
      if String.eqb unit "milliseconds" then Date_.getTime now
      else JS.floorDiv (Date_.getTime now) 1000 in
    {| text := JS.toString timestamp; isError := false |}
  else
    {| text := "Unknown tool: " +:+ name; isError := true |}.

(** ** A runtime to evaluate on

    A runtime after Node 20 (the image of the [Dockerfile]), for the
    examples and witnesses only; no general statement depends on it.
    Under [hour12: false] its [en-US] formatter takes the [h24] cycle, and
    it writes a plain space before AM/PM.  Its database is an excerpt of
    three zones, each at the constant offset it has had since 1968; the
    real database knows many more identifiers and earlier offsets, so an
    identifier outside the excerpt stands for one the runtime cannot
    resolve, and instants before 1968 are used with UTC only. *)

Definition zones (tz : string) : option (Z -> Z) :=
  if String.eqb tz "UTC" then Some (fun _ => 0)
  else if String.eqb tz "Asia/Tokyo" then Some (fun _ => 9 * Calendar.msPerHour)
  else if String.eqb tz "America/Phoenix" then Some (fun _ => -7 * Calendar.msPerHour)
  else None.

Definition node20 : Runtime :=
  {| timeZoneOffset := zones;
     invalidTimeZoneMessage := fun tz => "Invalid time zone specified: " +:+ tz;
     hostTimeZone := "UTC";
     hourCycle24 := h24;
     dayPeriodSeparator := " " |}.

(** The same runtime with the [h23] cycle under [hour12: false], and
    nothing else changed. *)
Definition h23Runtime : Runtime :=
  {| timeZoneOffset := timeZoneOffset node20;
     invalidTimeZoneMessage := invalidTimeZoneMessage node20;
     hostTimeZone := hostTimeZone node20;
     hourCycle24 := h23;
     dayPeriodSeparator := dayPeriodSeparator node20 |}.

(** The environment the [Dockerfile] sets, and its configuration. *)
Definition dockerEnv : gmap string string :=
  {[ "DATETIME_FORMAT" := "iso"; "TIMEZONE" := "UTC" ]}.

Definition defaultConfig : Config := loadConfig node20 dockerEnv.

(** ** The specification's reading, to compare the code with *)

Module Spec.

(** The selectors of the enumeration, and those that render local time. *)
Definition knownSelectors : list string :=
  ["iso"; "unix"; "unix_ms"; "human"; "date"; "time"; "custom"].

Definition localSelectors : list string :=
  ["human"; "date"; "time"; "custom"].

(** Precedence of one field: the per-call value if present and
    non-empty, else the process-wide value (an empty one counts as
    unset), else the built-in fallback. *)
Definition nonEmpty (o : option string) : option string :=
  match o with
  | Some s => if String.eqb s "" then None else Some s
  | None => None
  end.

Definition resolve (perCall processWide : option string) (fallback : string) : string :=
  match nonEmpty perCall with
  | Some s => s
  | None =>
      match nonEmpty processWide with
      | Some s => s
      | None => fallback
      end
  end.

(** Decimal digits written out: the zero-padded numerals of fixed width. *)
Definition digit (d : Z) : ascii := ascii_of_nat (48 + Z.to_nat d).

Definition twoDigits (n : Z) : string :=
  String (digit (n / 10)) (String (digit (n mod 10)) "").

Definition threeDigits (n : Z) : string :=
  String (digit (n / 100)) (twoDigits (n mod 100)).

Definition fourDigits (n : Z) : string :=
  String (digit (n / 1000)) (threeDigits (n mod 1000)).

(** The last two characters of a string (all of it when shorter). *)
Fixpoint lastTwo (s : string) : string :=
  match s with
  | String _ (String _ (String _ _) as r) => lastTwo r
  | _ => s
  end.

(** One scan of the template over an ordered list of rules (token,
    replacement): at each position the first rule whose token occurs
    there is applied and the scan resumes after the occurrence; where
    no token occurs the character is emitted as it is. *)
Fixpoint firstMatch (rules : list (string * string)) (s : string)
  : option (string * string) :=
  match rules with
  | [] => None
  | (tok, rep) :: rest =>
      if JS.startsWith tok s then Some (tok, rep) else firstMatch rest s
  end.

Fixpoint scanFrom (rules : list (string * string)) (skip : nat) (s : string) : string :=
  match s with
  | EmptyString => EmptyString
  | String c r =>
      match skip with
      | S k => scanFrom rules k r
      | O =>
          match firstMatch rules s with
          | Some (tok, rep) => rep +:+ scanFrom rules (String.length tok - 1) r
          | None => String c (scanFrom rules O r)
          end
      end
  end.

Definition substituteTokens (rules : list (string * string)) (template : string) : string :=
  scanFrom rules O template.

(** The seven rules, the four-character token before the two-character
    one. *)
Definition tokenRules (year month day hour minute second : string)
  : list (string * string) :=
  [("YYYY", year); ("YY", lastTwo year); ("MM", month); ("DD", day);
   ("HH", hour); ("mm", minute); ("ss", second)].

(** The hour as the runtime's cycle for [hour12: false] counts it. *)
Definition hourOfCycle (hc : HourCycle) (h : Z) : Z :=
  match hc with
  | h23 => h
  | h24 => if h =? 0 then 24 else h
  end.

(** Truncation toward zero of [t / 1000]. *)
Definition truncSeconds (t : Z) : Z := Z.quot t 1000.

End Spec.

(** ** The Gregorian calendar, stated on its own

    The calendar the specification's "calendar-and-time representation"
    refers to, written from the rule of the calendar and not from the
    date arithmetic of the runtime: which years are leap years, how many
    days each month has, and the number of a day counted from 1 January
    1970. *)

Module Gregorian.

(** Every fourth year is a leap year, except the centuries that are not
    multiples of 400. *)
Definition leapYear (y : Z) : bool :=
  ((y mod 4 =? 0) && negb (y mod 100 =? 0)) || (y mod 400 =? 0).

(** Days of month [m] (1..12) of year [y]. *)
Definition daysInMonth (y m : Z) : Z :=
  match m with
  | 1 => 31
  | 2 => if leapYear y then 29 else 28
  | 3 => 31
  | 4 => 30
  | 5 => 31
  | 6 => 30
  | 7 => 31
  | 8 => 31
  | 9 => 30
  | 10 => 31
  | 11 => 30
  | 12 => 31
  | _ => 0
  end.

(** Days of the months of year [y] before month [m]. *)
Definition daysBeforeMonth (y m : Z) : Z :=
  fold_right Z.add 0
    (map (fun k => daysInMonth y (Z.of_nat k)) (seq 1 (Z.to_nat (m - 1)))).

(** Leap years among the years before [y], counted from year 1. *)
Definition leapYearsBefore (y : Z) : Z :=
  (y - 1) / 4 - (y - 1) / 100 + (y - 1) / 400.

(** Days from 1 January 1970 to 1 January of year [y]. *)
Definition daysBeforeYear (y : Z) : Z :=
  365 * (y - 1970) + (leapYearsBefore y - leapYearsBefore 1970).

(** The number of day [d] of month [m] of year [y]; 1 January 1970 is
    day 0. *)
Definition dayNumber (y m d : Z) : Z :=
  daysBeforeYear y + daysBeforeMonth y m + (d - 1).

(** The instant of a date and clock time at offset zero, in
    milliseconds. *)
Definition instantOf (y m d h mi s ms : Z) : Z :=
  dayNumber y m d * 86400000 + h * 3600000 + mi * 60000 + s * 1000 + ms.

End Gregorian.

(** ** Predicates on strings used in the statements *)

(** The letters the seven tokens are made of. *)
Definition tokenLetter (c : ascii) : bool :=
  Ascii.eqb c "Y" || Ascii.eqb c "M" || Ascii.eqb c "D" ||
  Ascii.eqb c "H" || Ascii.eqb c "m" || Ascii.eqb c "s".

Definition isDigit (c : ascii) : bool :=
  (48 <=? nat_of_ascii c)%nat && (nat_of_ascii c <=? 57)%nat.

Fixpoint allChars (P : ascii -> bool) (s : string) : bool :=
  match s with
  | EmptyString => true
  | String c r => P c && allChars P r
  end.

(** A replacement text no later pass can touch: not empty and free of
    token letters. *)
Definition inert (d : string) : Prop :=
  d <> "" /\ allChars (fun c => negb (tokenLetter c)) d = true.

(** The selector is one of those that render local time. *)
Definition usesZone (format : string) : bool :=
  existsb (String.eqb format) Spec.localSelectors.

(** [s] begins with the character [a]. *)
Definition heads (a : ascii) (s : string) : bool :=
  JS.startsWith (String a "") s.

(** ** The tools the server lists *)

(** One property of a tool's input schema: its name, its type, the
    values of its [enum] (none when the schema has no [enum]) and its
    description. *)
Record SchemaProperty := {
  propName : string;
  propType : string;
  propEnum : list string;
  propDescription : string
}.

Record Tool := {
  toolName : string;
  toolDescription : string;
  toolProperties : list SchemaProperty
}.

(** The descriptions are template literals over the start-up constants. *)
Definition GET_CURRENT_TIME_TOOL (cfg : Config) : Tool :=
  {| toolName := "get_current_time";
     toolDescription := "Get the current date and time";
     toolProperties :=
       [ {| propName := "format"; propType := "string";
            propEnum := ["iso"; "unix"; "unix_ms"; "human"; "date"; "time"; "custom"];
            propDescription :=
              "Output format for the datetime (optional, defaults to " +:+
              String (ascii_of_nat 34) (DATETIME_FORMAT cfg) +:+
              String (ascii_of_nat 34) " from env)" |};
         {| propName := "timezone"; propType := "string";
            propEnum := [];
            propDescription :=
              "Timezone to use (optional, defaults to " +:+
              String (ascii_of_nat 34) (TIMEZONE cfg) +:+
              String (ascii_of_nat 34) " from env)" |} ] |}.

Definition GET_TIMESTAMP_TOOL : Tool :=
  {| toolName := "get_timestamp";
     toolDescription := "Get the current Unix timestamp";
     toolProperties :=
       [ {| propName := "unit"; propType := "string";
            propEnum := ["seconds"; "milliseconds"];
            propDescription :=
              "Unit for the timestamp (optional, defaults to 'seconds')" |} ] |}.

(** The handler of [ListToolsRequestSchema]. *)
Definition handleListTools (cfg : Config) : list Tool :=
  [GET_CURRENT_TIME_TOOL cfg; GET_TIMESTAMP_TOOL].

(** The result the handler of tool calls ends with when no branch took
    the name. *)
Definition unknownTool (name : string) : ToolResult :=
  {| text := "Unknown tool: " +:+ name; isError := true |}.

(** ** Occurrences of tokens *)

(** The patterns of the seven [replace] calls of [formatCustomDate]. *)
Definition tokens : list string := ["YYYY"; "YY"; "MM"; "DD"; "HH"; "mm"; "ss"].

(** A token occurs at the head of [s]. *)
Definition hasTokenAt (s : string) : bool :=
  existsb (fun tok => JS.startsWith tok s) tokens.

(** No token occurs anywhere in [s]. *)
Fixpoint tokenFree (s : string) : bool :=
  match s with
  | EmptyString => true
  | String c r => negb (hasTokenAt s) && tokenFree r
  end.

(** * Facts *)

(** ** Strings *)

Section StringFacts.

Lemma app_String c s t : String c s +:+ t = String c (s +:+ t).
Proof. reflexivity. Qed.

Lemma length_app_s s t :
  String.length (s +:+ t) = (String.length s + String.length t)%nat.
Proof.
  induction s as [|c s IH]; [reflexivity|].
  rewrite app_String. simpl. now rewrite IH.
Qed.

Lemma startsWith_app tok s : JS.startsWith tok (tok +:+ s) = true.
Proof.
  induction tok as [|a tok IH]; [reflexivity|].
  rewrite app_String. simpl. now rewrite Ascii.eqb_refl, IH.
Qed.

(** A match at the head exhibits the token as a prefix. *)
Lemma startsWith_true tok s :
  JS.startsWith tok s = true -> exists r, s = tok +:+ r.
Proof.
  revert s. induction tok as [|a tok IH]; intros s H.
  - now exists s.
  - destruct s as [|c s]; [discriminate|]. simpl in H.
    apply andb_true_iff in H as [Hc Hs]. apply Ascii.eqb_eq in Hc. subst c.
    destruct (IH _ Hs) as [r ->]. now exists r.
Qed.

Lemma startsWith_head_ne a tok c s :
  Ascii.eqb a c = false -> JS.startsWith (String a tok) (String c s) = false.
Proof. intros H. simpl. now rewrite H. Qed.

End StringFacts.

(** ** [replace] with a global pattern *)

Section ReplaceFacts.

Variables tok rep : string.

Lemma replaceFrom_O c r :
  JS.replaceFrom tok rep O (String c r) =
  if JS.startsWith tok (String c r)
  then rep +:+ JS.replaceFrom tok rep (String.length tok - 1) r
  else String c (JS.replaceFrom tok rep O r).
Proof. reflexivity. Qed.

(** Passing over the rest of a match. *)
Lemma replaceFrom_skip u s :
  JS.replaceFrom tok rep (String.length u) (u +:+ s) = JS.replaceAll tok rep s.
Proof.
  induction u as [|c u IH].
  - reflexivity.
  - rewrite app_String. exact IH.
Qed.

Lemma replaceAll_copy c s :
  JS.startsWith tok (String c s) = false ->
  JS.replaceAll tok rep (String c s) = String c (JS.replaceAll tok rep s).
Proof.
  intros H. unfold JS.replaceAll. now rewrite replaceFrom_O, H.
Qed.

End ReplaceFacts.

Lemma replaceAll_match_cons a tk rep s :
  JS.replaceAll (String a tk) rep (String a tk +:+ s) =
  rep +:+ JS.replaceAll (String a tk) rep s.
Proof.
  unfold JS.replaceAll at 1. rewrite app_String, replaceFrom_O.
  rewrite <- app_String, startsWith_app. f_equal.
  replace (String.length (String a tk) - 1)%nat with (String.length tk)
    by (simpl; lia).
  apply replaceFrom_skip.
Qed.

Lemma replaceAll_match2 a b rep s :
  JS.replaceAll (String a (String b "")) rep (String a (String b s)) =
  rep +:+ JS.replaceAll (String a (String b "")) rep s.
Proof. exact (replaceAll_match_cons a (String b "") rep s). Qed.


(** A text free of the first character of the token is passed over. *)
Lemma replaceAll_inert a tk rep d s :
  allChars (fun c => negb (Ascii.eqb a c)) d = true ->
  JS.replaceAll (String a tk) rep (d +:+ s) = d +:+ JS.replaceAll (String a tk) rep s.
Proof.
  induction d as [|c d IH]; intros H; [reflexivity|].
  simpl in H. apply andb_true_iff in H as [Hc Hd]. apply negb_true_iff in Hc.
  rewrite !app_String, replaceAll_copy by now apply startsWith_head_ne.
  now rewrite IH.
Qed.

Lemma heads_app a d s : d <> "" -> heads a (d +:+ s) = heads a d.
Proof. destruct d as [|c d]; [congruence|]. intros _. unfold heads. simpl.
  now rewrite !andb_true_r. Qed.

(** A pass does not bring a letter to the front that was not there. *)
Lemma heads_replaceAll a tok rep s :
  rep <> "" -> heads a rep = false -> heads a s = false ->
  heads a (JS.replaceAll tok rep s) = false.
Proof.
  intros Hne Hrep Hs. destruct s as [|c s]; [reflexivity|].
  unfold JS.replaceAll. rewrite replaceFrom_O.
  destruct (JS.startsWith tok (String c s)).
  - now rewrite heads_app.
  - exact Hs.
Qed.

Lemma startsWith2 a b c s :
  JS.startsWith (String a (String b "")) (String c s) = Ascii.eqb a c && heads b s.
Proof. reflexivity. Qed.

Lemma inert_heads a d : tokenLetter a = true -> inert d -> heads a d = false.
Proof.
  intros Ha [Hne Hd]. destruct d as [|c d]; [congruence|].
  simpl in Hd. apply andb_true_iff in Hd as [Hc _]. apply negb_true_iff in Hc.
  unfold heads. simpl. rewrite andb_true_r.
  destruct (Ascii.eqb a c) eqn:E; [|reflexivity].
  apply Ascii.eqb_eq in E. congruence.
Qed.

Lemma inert_avoids a d :
  tokenLetter a = true -> inert d ->
  allChars (fun c => negb (Ascii.eqb a c)) d = true.
Proof.
  intros Ha [_ Hd]. induction d as [|c d IH]; [reflexivity|].
  simpl in *. apply andb_true_iff in Hd as [Hc Hd]. rewrite (IH Hd), andb_true_r.
  apply negb_true_iff in Hc. apply negb_true_iff.
  destruct (Ascii.eqb a c) eqn:E; [|reflexivity].
  apply Ascii.eqb_eq in E. congruence.
Qed.

(** ** The last two characters *)

Lemma slice_last2_lastTwo s : JS.slice_last2 s = Spec.lastTwo s.
Proof.
  unfold JS.slice_last2.
  induction s as [|c s IH]; [reflexivity|].
  destruct s as [|c2 s]; [reflexivity|].
  destruct s as [|c3 s]; [reflexivity|].
  change (Spec.lastTwo (String c (String c2 (String c3 s))))
    with (Spec.lastTwo (String c2 (String c3 s))).
  rewrite <- IH. simpl String.length.
  replace (S (S (S (String.length s))) - 2)%nat with (S (String.length s)) by lia.
  replace (S (S (String.length s)) - 2)%nat with (String.length s) by lia.
  reflexivity.
Qed.

Lemma lastTwo_inert d : inert d -> inert (Spec.lastTwo d).
Proof.
  intros [Hne Hd]. induction d as [|c d IH]; [congruence|].
  destruct d as [|c2 d]; [now split|].
  destruct d as [|c3 d]; [now split|].
  change (Spec.lastTwo (String c (String c2 (String c3 d))))
    with (Spec.lastTwo (String c2 (String c3 d))).
  apply IH; [congruence|]. simpl in Hd. apply andb_true_iff in Hd as [_ Hd]. exact Hd.
Qed.

(** ** The scan of the specification *)

Section ScanFacts.

Variable rules : list (string * string).

Lemma scanFrom_O c r :
  Spec.scanFrom rules O (String c r) =
  match Spec.firstMatch rules (String c r) with
  | Some (tok, rep) => rep +:+ Spec.scanFrom rules (String.length tok - 1) r
  | None => String c (Spec.scanFrom rules O r)
  end.
Proof. reflexivity. Qed.

Lemma scanFrom_skip u s :
  Spec.scanFrom rules (String.length u) (u +:+ s) = Spec.substituteTokens rules s.
Proof.
  induction u as [|c u IH]; [reflexivity|].
  rewrite app_String. exact IH.
Qed.

Lemma scan_copy c s :
  Spec.firstMatch rules (String c s) = None ->
  Spec.substituteTokens rules (String c s) = String c (Spec.substituteTokens rules s).
Proof. intros H. unfold Spec.substituteTokens. now rewrite scanFrom_O, H. Qed.

Lemma scan_match a tk rep s :
  Spec.firstMatch rules (String a tk +:+ s) = Some (String a tk, rep) ->
  Spec.substituteTokens rules (String a tk +:+ s) =
  rep +:+ Spec.substituteTokens rules s.
Proof.
  intros H. unfold Spec.substituteTokens at 1.
  rewrite app_String in *. rewrite scanFrom_O, H. f_equal.
  replace (String.length (String a tk) - 1)%nat with (String.length tk)
    by (simpl; lia).
  apply scanFrom_skip.
Qed.

End ScanFacts.

(** Text without token letters is emitted as it is by the scan. *)
Lemma scan_literal year month day hour minute second lit s :
  allChars (fun c => negb (tokenLetter c)) lit = true ->
  Spec.substituteTokens (Spec.tokenRules year month day hour minute second) (lit +:+ s) =
  lit +:+ Spec.substituteTokens (Spec.tokenRules year month day hour minute second) s.
Proof.
  induction lit as [|c lit IH]; intros H; [reflexivity|].
  simpl in H. apply andb_true_iff in H as [Hc Hl].
  rewrite !app_String, scan_copy, (IH Hl); [reflexivity|].
  unfold Spec.tokenRules. cbn [Spec.firstMatch JS.startsWith].
  apply negb_true_iff in Hc. unfold tokenLetter in Hc.
  repeat (apply orb_false_iff in Hc as [Hc ?]).
  rewrite !(Ascii.eqb_sym _ c).
  repeat match goal with H : Ascii.eqb c _ = false |- _ => rewrite H; clear H end.
  reflexivity.
Qed.

(** ** The seven passes of [formatCustomDate] against one scan *)

Section Passes.

Variables year month day hour minute second : string.
Hypothesis Hyear : inert year.
Hypothesis Hmonth : inert month.
Hypothesis Hday : inert day.
Hypothesis Hhour : inert hour.
Hypothesis Hminute : inert minute.
Hypothesis Hsecond : inert second.

Let passes (s : string) : string :=
  JS.replaceAll "ss" second
    (JS.replaceAll "mm" minute
    (JS.replaceAll "HH" hour
    (JS.replaceAll "DD" day
    (JS.replaceAll "MM" month
    (JS.replaceAll "YY" (JS.slice_last2 year)
    (JS.replaceAll "YYYY" year s)))))).

Let rules := Spec.tokenRules year month day hour minute second.

Let Hyy : inert (JS.slice_last2 year).
Proof. rewrite slice_last2_lastTwo. now apply lastTwo_inert. Qed.

Local Ltac letter := reflexivity.

Local Ltac avoid :=
  first [ apply inert_avoids; [letter | assumption ] ].

Local Ltac front :=
  repeat (apply heads_replaceAll;
          [ first [ apply Hyear | apply Hyy | apply Hmonth | apply Hday
                  | apply Hhour | apply Hminute | apply Hsecond ]
          | apply inert_heads; [letter | assumption]
          | ]);
  try assumption.

Lemma no_YYYY_inside r :
  JS.startsWith "YYYY" (String "Y" (String "Y" r)) = false ->
  JS.startsWith "YYYY" (String "Y" r) = false.
Proof.
  cbn [JS.startsWith]. rewrite !Ascii.eqb_refl. cbn [andb].
  destruct r as [|c1 r]; [reflexivity|].
  destruct (Ascii.eqb "Y" c1); [cbn [andb]|reflexivity].
  destruct r as [|c2 r]; [reflexivity|].
  destruct (Ascii.eqb "Y" c2); [cbn [andb]|reflexivity].
  discriminate.
Qed.

Lemma passes_YYYY r : passes ("YYYY" +:+ r) = year +:+ passes r.
Proof.
  unfold passes. rewrite replaceAll_match_cons.
  now rewrite !replaceAll_inert by avoid.
Qed.

Lemma passes_YY r :
  JS.startsWith "YYYY" ("YY" +:+ r) = false ->
  passes ("YY" +:+ r) = JS.slice_last2 year +:+ passes r.
Proof.
  intros H. unfold passes.
  change ("YY" +:+ r) with (String "Y" (String "Y" r)) in *.
  rewrite (replaceAll_copy "YYYY") by exact H.
  rewrite (replaceAll_copy "YYYY") by now apply no_YYYY_inside.
  rewrite replaceAll_match2.
  now rewrite !replaceAll_inert by avoid.
Qed.

(** A two-letter token whose letter is not Y. *)
Local Ltac two_letter :=
  unfold passes;
  rewrite ?(replaceAll_copy "YYYY") by reflexivity;
  rewrite ?(replaceAll_copy "YY") by reflexivity;
  rewrite ?(replaceAll_copy "MM") by reflexivity;
  rewrite ?(replaceAll_copy "DD") by reflexivity;
  rewrite ?(replaceAll_copy "HH") by reflexivity;
  rewrite ?(replaceAll_copy "mm") by reflexivity;
  rewrite replaceAll_match2;
  now rewrite ?replaceAll_inert by avoid.

Lemma passes_MM r : passes ("MM" +:+ r) = month +:+ passes r.
Proof. change ("MM" +:+ r) with (String "M" (String "M" r)). two_letter. Qed.

Lemma passes_DD r : passes ("DD" +:+ r) = day +:+ passes r.
Proof. change ("DD" +:+ r) with (String "D" (String "D" r)). two_letter. Qed.

Lemma passes_HH r : passes ("HH" +:+ r) = hour +:+ passes r.
Proof. change ("HH" +:+ r) with (String "H" (String "H" r)). two_letter. Qed.

Lemma passes_mm r : passes ("mm" +:+ r) = minute +:+ passes r.
Proof. change ("mm" +:+ r) with (String "m" (String "m" r)). two_letter. Qed.

Lemma passes_ss r : passes ("ss" +:+ r) = second +:+ passes r.
Proof. change ("ss" +:+ r) with (String "s" (String "s" r)). two_letter. Qed.

Lemma no_match_transfer a c r x :
  JS.startsWith (String a (String a "")) (String c r) = false ->
  (heads a r = false -> heads a x = false) ->
  JS.startsWith (String a (String a "")) (String c x) = false.
Proof.
  rewrite !startsWith2. destruct (Ascii.eqb a c); cbn [andb]; auto.
Qed.

Local Ltac next E :=
  rewrite replaceAll_copy by (apply (no_match_transfer _ _ _ _ E); intros; front).

(** Where no token occurs the character is copied by every pass. *)
Lemma passes_copy c r :
  Spec.firstMatch rules (String c r) = None ->
  passes (String c r) = String c (passes r).
Proof.
  unfold rules, Spec.tokenRules. cbn [Spec.firstMatch].
  destruct (JS.startsWith "YYYY" (String c r)) eqn:E1; [discriminate|].
  destruct (JS.startsWith "YY" (String c r)) eqn:E2; [discriminate|].
  destruct (JS.startsWith "MM" (String c r)) eqn:E3; [discriminate|].
  destruct (JS.startsWith "DD" (String c r)) eqn:E4; [discriminate|].
  destruct (JS.startsWith "HH" (String c r)) eqn:E5; [discriminate|].
  destruct (JS.startsWith "mm" (String c r)) eqn:E6; [discriminate|].
  destruct (JS.startsWith "ss" (String c r)) eqn:E7; [discriminate|].
  intros _. unfold passes.
  rewrite (replaceAll_copy "YYYY") by exact E1.
  next E2. next E3. next E4. next E5. next E6. next E7.
  reflexivity.
Qed.

Local Ltac matched E IH :=
  let r' := fresh "r" in
  let Hr := fresh "Hr" in
  destruct (startsWith_true _ _ E) as [r' Hr];
  rewrite Hr in *;
  erewrite scan_match
    by (unfold rules, Spec.tokenRules; cbn [Spec.firstMatch];
        repeat match goal with
               | H : JS.startsWith _ _ = _ |- _ => rewrite H; clear H
               end;
        rewrite <- ?slice_last2_lastTwo; reflexivity);
  rewrite <- IH by (rewrite length_app_s; simpl; lia).

(** The chain of seven global replacements computes the scan. *)
Lemma passes_scan s : passes s = Spec.substituteTokens rules s.
Proof.
  remember (String.length s) as n eqn:Hn. revert s Hn.
  induction n as [n IH] using lt_wf_ind. intros s Hn.
  assert (IH' : forall r, (String.length r < String.length s)%nat ->
                          passes r = Spec.substituteTokens rules r)
    by (intros r Hr; apply (IH (String.length r)); [lia | reflexivity]).
  clear IH Hn n.
  destruct s as [|c r]; [reflexivity|].
  destruct (JS.startsWith "YYYY" (String c r)) eqn:E1.
  { matched E1 IH'. now rewrite passes_YYYY. }
  destruct (JS.startsWith "YY" (String c r)) eqn:E2.
  { matched E2 IH'. rewrite passes_YY by assumption.
    now rewrite slice_last2_lastTwo. }
  destruct (JS.startsWith "MM" (String c r)) eqn:E3.
  { matched E3 IH'. now rewrite passes_MM. }
  destruct (JS.startsWith "DD" (String c r)) eqn:E4.
  { matched E4 IH'. now rewrite passes_DD. }
  destruct (JS.startsWith "HH" (String c r)) eqn:E5.
  { matched E5 IH'. now rewrite passes_HH. }
  destruct (JS.startsWith "mm" (String c r)) eqn:E6.
  { matched E6 IH'. now rewrite passes_mm. }
  destruct (JS.startsWith "ss" (String c r)) eqn:E7.
  { matched E7 IH'. now rewrite passes_ss. }
  assert (Hnone : Spec.firstMatch rules (String c r) = None).
  { unfold rules, Spec.tokenRules. cbn [Spec.firstMatch].
    now rewrite E1, E2, E3, E4, E5, E6, E7. }
  rewrite passes_copy, scan_copy by exact Hnone.
  f_equal. apply IH'. simpl. lia.
Qed.

End Passes.

(** ** Decimal numerals *)

Lemma uint_chars (P : ascii -> bool) d :
  (forall c, isDigit c = true -> P c = true) ->
  allChars P (NilEmpty.string_of_uint d) = true.
Proof.
  intros HP. induction d; simpl; rewrite ?IHd, ?andb_true_r;
    try reflexivity; now apply HP.
Qed.

Lemma uint_nonempty d : NilZero.string_of_uint d <> "".
Proof. destruct d; discriminate. Qed.

Lemma uint_chars0 (P : ascii -> bool) d :
  (forall c, isDigit c = true -> P c = true) ->
  allChars P (NilZero.string_of_uint d) = true.
Proof.
  intros HP. destruct d; try apply (uint_chars P _ HP).
  simpl. rewrite andb_true_r. now apply HP.
Qed.

Lemma digit_not_tokenLetter c : isDigit c = true -> negb (tokenLetter c) = true.
Proof.
  unfold isDigit, tokenLetter. intros H.
  apply andb_true_iff in H as [H1 H2].
  apply Nat.leb_le in H1, H2.
  repeat match goal with
  | |- context [Ascii.eqb c ?k] =>
      let E := fresh in
      destruct (Ascii.eqb c k) eqn:E;
      [apply Ascii.eqb_eq in E; subst c; vm_compute in H1, H2; lia|]
  end.
  reflexivity.
Qed.

(** Whatever the integer, its numeral is not empty and has no token
    letter: digits, after a minus sign when negative. *)
Lemma toString_inert n : inert (JS.toString n).
Proof.
  unfold JS.toString, NilZero.string_of_int.
  destruct (Z.to_int n) as [d|d]; split.
  - apply uint_nonempty.
  - apply uint_chars0, digit_not_tokenLetter.
  - discriminate.
  - simpl. apply uint_chars0, digit_not_tokenLetter.
Qed.

Lemma zeros_app_inert k s : inert s -> inert (JS.zeros k +:+ s).
Proof.
  intros [Hne Hs]. induction k as [|k [IH1 IH2]]; [now split|].
  split; [discriminate|]. simpl JS.zeros. rewrite app_String. simpl. exact IH2.
Qed.

Lemma pad2_inert n : inert (pad2 n).
Proof. apply zeros_app_inert, toString_inert. Qed.

(** Reading a numeral back gives the integer. *)
Lemma parseDecimal_toString n : JS.parseDecimal (JS.toString n) = Some n.
Proof.
  unfold JS.parseDecimal, JS.toString.
  rewrite NilZero.isi.
  - simpl. now rewrite DecimalZ.of_to.
  - destruct n; simpl; try discriminate.
    intros H. injection H. apply Unsigned.to_uint_nonnil.
  - destruct n; simpl; try discriminate.
    intros H. injection H. apply Unsigned.to_uint_nonnil.
Qed.

(** A property checked on every integer of a range. *)
Lemma range_check (P : Z -> bool) (lo k : Z) :
  forallb P (map (fun i => lo + Z.of_nat i) (seq 0 (Z.to_nat k))) = true ->
  forall z, lo <= z < lo + k -> P z = true.
Proof.
  intros H z Hz. rewrite forallb_forall in H. apply H.
  apply in_map_iff. exists (Z.to_nat (z - lo)). split; [lia|].
  apply in_seq. lia.
Qed.

Lemma pad2_twoDigits n : 0 <= n < 100 -> pad2 n = Spec.twoDigits n.
Proof.
  intros H. apply String.eqb_eq.
  apply (range_check (fun z => String.eqb (pad2 z) (Spec.twoDigits z)) 0 100);
    [vm_compute; reflexivity | lia].
Qed.

Lemma pad3_threeDigits n : 0 <= n < 1000 -> Date_.pad 3 n = Spec.threeDigits n.
Proof.
  intros H. apply String.eqb_eq.
  apply (range_check (fun z => String.eqb (Date_.pad 3 z) (Spec.threeDigits z)) 0 1000);
    [vm_compute; reflexivity | lia].
Qed.

Lemma pad4_fourDigits n : 0 <= n < 10000 -> Date_.pad 4 n = Spec.fourDigits n.
Proof.
  intros H. apply String.eqb_eq.
  apply (range_check (fun z => String.eqb (Date_.pad 4 z) (Spec.fourDigits z)) 0 10000);
    [vm_compute; reflexivity | lia].
Qed.

Lemma toString_fourDigits n : 1000 <= n < 10000 -> JS.toString n = Spec.fourDigits n.
Proof.
  intros H. apply String.eqb_eq.
  apply (range_check (fun z => String.eqb (JS.toString z) (Spec.fourDigits z)) 1000 9000);
    [vm_compute; reflexivity | lia].
Qed.

Lemma lastTwo_fourDigits n :
  Spec.lastTwo (Spec.fourDigits n) = Spec.twoDigits (n mod 1000 mod 100).
Proof. reflexivity. Qed.

(** The number of digits bounds the number. *)
Lemma string_of_uint_length d :
  String.length (NilEmpty.string_of_uint d) = Decimal.nb_digits d.
Proof. induction d; simpl; congruence. Qed.

Lemma of_lu_bound d :
  (Unsigned.of_lu d < 10 ^ N.of_nat (Decimal.nb_digits d))%N.
Proof.
  induction d; cbn [Unsigned.of_lu Decimal.nb_digits];
    rewrite ?Nat2N.inj_succ, ?N.pow_succ_r'; simpl N.of_nat; lia.
Qed.

Lemma toString_length_bound p :
  Z.pos p < 10 ^ Z.of_nat (String.length (JS.toString (Z.pos p))).
Proof.
  unfold JS.toString. cbn [Z.to_int NilZero.string_of_int].
  pose proof (Unsigned.to_uint_nonnil p) as Hn.
  assert (E : NilZero.string_of_uint (Pos.to_uint p) =
              NilEmpty.string_of_uint (Pos.to_uint p))
    by (unfold NilZero.string_of_uint; now destruct (Pos.to_uint p)).
  rewrite E, string_of_uint_length.
  pose proof (of_lu_bound (Decimal.rev (Pos.to_uint p))) as Hb.
  rewrite <- Unsigned.of_uint_alt, Unsigned.of_to, DecimalFacts.nb_digits_rev in Hb.
  apply N2Z.inj_lt in Hb. rewrite N2Z.inj_pow, nat_N_Z in Hb. exact Hb.
Qed.

(** A positive integer has a numeral of four characters exactly when it
    lies in 1000..9999. *)
Lemma toString_four_chars y :
  1 <= y -> (String.length (JS.toString y) = 4%nat <-> 1000 <= y <= 9999).
Proof.
  intros Hy. split.
  - intros H4. split.
    + destruct (Z_lt_le_dec y 1000) as [Hlt|]; [|assumption]. exfalso.
      assert (Hc : negb (Nat.eqb (String.length (JS.toString y)) 4) = true).
      { apply (range_check
                 (fun z => negb (Nat.eqb (String.length (JS.toString z)) 4)) 1 999);
          [vm_compute; reflexivity | lia]. }
      rewrite H4 in Hc. discriminate.
    + destruct y as [|p|p]; try lia.
      pose proof (toString_length_bound p) as Hb. rewrite H4 in Hb.
      change (10 ^ Z.of_nat 4) with 10000 in Hb. lia.
  - intros Hr.
    assert (Hc : Nat.eqb (String.length (JS.toString y)) 4 = true).
    { apply (range_check
               (fun z => Nat.eqb (String.length (JS.toString z)) 4) 1000 9000);
        [vm_compute; reflexivity | lia]. }
    now apply Nat.eqb_eq in Hc.
Qed.

(** ** The calendar *)

Section CalendarFacts.
Import Calendar.

Lemma DayFromYear_next y : DayFromYear (y + 1) = DayFromYear y + DaysInYear y.
Proof.
  unfold DayFromYear, DaysInYear, isLeap.
  destruct (y mod 4 =? 0) eqn:E4; destruct (y mod 100 =? 0) eqn:E100;
    destruct (y mod 400 =? 0) eqn:E400; simpl;
    rewrite ?Z.eqb_eq, ?Z.eqb_neq in *; Z.div_mod_to_equations; lia.
Qed.

(** The year found is the one whose days contain [d]. *)
Lemma yearOfDay_spec d :
  DayFromYear (yearOfDay d) <= d < DayFromYear (yearOfDay d + 1).
Proof.
  unfold yearOfDay.
  set (y := 1970 + 400 * d / 146097).
  assert (Hy : DayFromYear (y - 1) <= d < DayFromYear (y + 2)).
  { unfold DayFromYear, y. Z.div_mod_to_equations. lia. }
  destruct (d <? DayFromYear y) eqn:E1.
  - apply Z.ltb_lt in E1. replace (y - 1 + 1) with y by lia. lia.
  - apply Z.ltb_ge in E1. destruct (DayFromYear (y + 1) <=? d) eqn:E2.
    + apply Z.leb_le in E2. replace (y + 1 + 1) with (y + 2) by lia. lia.
    + apply Z.leb_gt in E2. lia.
Qed.

Lemma DayFromYear_mono y y' : y <= y' -> DayFromYear y <= DayFromYear y'.
Proof.
  intros H. unfold DayFromYear. Z.div_mod_to_equations. lia.
Qed.

(** [YearFromTime t] is the largest year that starts at or before [t]. *)
Lemma YearFromTime_largest t y :
  DayFromYear y <= Day t <-> y <= YearFromTime t.
Proof.
  unfold YearFromTime. pose proof (yearOfDay_spec (Day t)) as [H1 H2]. split.
  - intros H. destruct (Z_le_gt_dec y (yearOfDay (Day t))) as [|Hgt]; [assumption|].
    pose proof (DayFromYear_mono (yearOfDay (Day t) + 1) y). lia.
  - intros H. pose proof (DayFromYear_mono y (yearOfDay (Day t)) H). lia.
Qed.

Lemma DayWithinYear_range t :
  0 <= DayWithinYear t < DaysInYear (YearFromTime t).
Proof.
  unfold DayWithinYear, YearFromTime.
  pose proof (yearOfDay_spec (Day t)) as H.
  rewrite DayFromYear_next in H. lia.
Qed.

Lemma InLeapYear_days t : DaysInYear (YearFromTime t) = 365 + InLeapYear t.
Proof. unfold DaysInYear, InLeapYear. now destruct (isLeap _). Qed.

Lemma InLeapYear_range t : 0 <= InLeapYear t <= 1.
Proof. unfold InLeapYear. destruct (isLeap _); lia. Qed.

Lemma monthOf_range d l : 0 <= monthOf d l <= 11.
Proof.
  unfold monthOf.
  repeat match goal with |- context [if ?b then _ else _] => destruct b end; lia.
Qed.

Lemma MonthFromTime_range t : 0 <= MonthFromTime t <= 11.
Proof. apply monthOf_range. Qed.

Lemma monthOf_date d l :
  0 <= l <= 1 -> 0 <= d < 365 + l ->
  1 <= d - monthStart (monthOf d l) l + 1 <= 31.
Proof.
  intros Hl Hd. unfold monthOf.
  repeat match goal with
  | |- context [if ?a <? ?b then _ else _] =>
      let E := fresh in destruct (Z.ltb_spec a b) as [E|E]
  end; simpl monthStart; lia.
Qed.

Lemma DateFromTime_range t : 1 <= DateFromTime t <= 31.
Proof.
  unfold DateFromTime, MonthFromTime.
  pose proof (DayWithinYear_range t) as H. rewrite InLeapYear_days in H.
  apply monthOf_date; [apply InLeapYear_range | exact H].
Qed.

Lemma HourFromTime_range t : 0 <= HourFromTime t <= 23.
Proof. unfold HourFromTime. Z.div_mod_to_equations. lia. Qed.

Lemma MinFromTime_range t : 0 <= MinFromTime t <= 59.
Proof. unfold MinFromTime. Z.div_mod_to_equations. lia. Qed.

Lemma SecFromTime_range t : 0 <= SecFromTime t <= 59.
Proof. unfold SecFromTime. Z.div_mod_to_equations. lia. Qed.

Lemma msFromTime_range t : 0 <= msFromTime t <= 999.
Proof. unfold msFromTime, msPerSecond. Z.div_mod_to_equations. lia. Qed.

(** The fields of an instant put together again give the instant. *)
Lemma fields_recompose t :
  MakeDate (MakeDay (YearFromTime t) (MonthFromTime t) (DateFromTime t))
           (MakeTime (HourFromTime t) (MinFromTime t) (SecFromTime t) (msFromTime t))
  = t.
Proof.
  unfold MakeDate, MakeDay, MakeTime, DateFromTime.
  fold (InLeapYear t).
  replace (DayFromYear (YearFromTime t) +
           monthStart (MonthFromTime t) (InLeapYear t) +
           (DayWithinYear t - monthStart (MonthFromTime t) (InLeapYear t) + 1) - 1)
    with (Day t) by (unfold DayWithinYear; lia).
  unfold Day, HourFromTime, MinFromTime, SecFromTime, msFromTime,
    msPerDay, msPerHour, msPerMinute, msPerSecond.
  Z.div_mod_to_equations. lia.
Qed.

End CalendarFacts.

(** ** The parts of the custom formatter *)

Section CustomParts.
Import Calendar.

Variable rt : Runtime.
Variable timezone : string.
Variable off : Z -> Z.
Variable date : Z.

Let options : Options :=
  {| timeZone := timezone; weekday := None;
     year := Some "numeric"; month := Some "2-digit"; day := Some "2-digit";
     hour := Some "2-digit"; minute := Some "2-digit"; second := Some "2-digit";
     hour12 := Some false |}.

Let f : DateTimeFormat :=
  {| fmtLocale := "en-US"; fmtOptions := options; fmtOffset := off |}.

Let lt : Z := date + off date.

Lemma custom_parts :
  formatToParts rt f date =
  [ {| type := "month"; value := pad2 (MonthFromTime lt + 1) |};
    {| type := "literal"; value := "/" |};
    {| type := "day"; value := pad2 (DateFromTime lt) |};
    {| type := "literal"; value := "/" |};
    {| type := "year"; value := JS.toString (yearOfEra (YearFromTime lt)) |};
    {| type := "literal"; value := ", " |};
    {| type := "hour";
       value := pad2 (Spec.hourOfCycle (hourCycle24 rt) (HourFromTime lt)) |};
    {| type := "literal"; value := ":" |};
    {| type := "minute"; value := pad2 (MinFromTime lt) |};
    {| type := "literal"; value := ":" |};
    {| type := "second"; value := pad2 (SecFromTime lt) |} ].
Proof. reflexivity. Qed.

Local Ltac look :=
  rewrite custom_parts; unfold collectParts; cbn [fold_left type value];
  repeat (rewrite lookup_insert_ne by discriminate);
  apply lookup_insert_eq.

Lemma custom_year :
  collectParts (formatToParts rt f date) !! "year" =
  Some (JS.toString (yearOfEra (YearFromTime lt))).
Proof. look. Qed.

Lemma custom_month :
  collectParts (formatToParts rt f date) !! "month" = Some (pad2 (MonthFromTime lt + 1)).
Proof. look. Qed.

Lemma custom_day :
  collectParts (formatToParts rt f date) !! "day" = Some (pad2 (DateFromTime lt)).
Proof. look. Qed.

Lemma custom_hour :
  collectParts (formatToParts rt f date) !! "hour" =
  Some (pad2 (Spec.hourOfCycle (hourCycle24 rt) (HourFromTime lt))).
Proof. look. Qed.

Lemma custom_minute :
  collectParts (formatToParts rt f date) !! "minute" = Some (pad2 (MinFromTime lt)).
Proof. look. Qed.

Lemma custom_second :
  collectParts (formatToParts rt f date) !! "second" = Some (pad2 (SecFromTime lt)).
Proof. look. Qed.

End CustomParts.

Lemma or_else_inert s b : inert s -> JS.or_else (Some s) b = s.
Proof. intros [Hne _]. destruct s; [congruence | reflexivity]. Qed.

Lemma hourOfCycle_range hc h : 0 <= h <= 23 -> 0 <= Spec.hourOfCycle hc h <= 24.
Proof. intros H. destruct hc; simpl; [lia|]. destruct (h =? 0); lia. Qed.

(** On a resolvable zone the custom formatter is the chain of passes over
    the six numerals of the local time. *)
Lemma formatCustomDate_passes rt date template tz off :
  timeZoneOffset rt tz = Some off ->
  formatCustomDate rt date template tz =
  Normal (Spec.substituteTokens
    (Spec.tokenRules
       (JS.toString (yearOfEra (Calendar.YearFromTime (date + off date))))
       (pad2 (Calendar.MonthFromTime (date + off date) + 1))
       (pad2 (Calendar.DateFromTime (date + off date)))
       (pad2 (Spec.hourOfCycle (hourCycle24 rt) (Calendar.HourFromTime (date + off date))))
       (pad2 (Calendar.MinFromTime (date + off date)))
       (pad2 (Calendar.SecFromTime (date + off date))))
    template).
Proof.
  intros Hz. unfold formatCustomDate, construct. cbn [timeZone]. rewrite Hz.
  cbn [bindC]. f_equal.
  rewrite custom_year, custom_month, custom_day, custom_hour, custom_minute,
    custom_second.
  rewrite !or_else_inert by (apply toString_inert || apply pad2_inert).
  apply passes_scan; apply toString_inert || apply pad2_inert.
Qed.

(** ** C1 *)

(** C1 (as amended).  On a resolvable zone, for every instant and every
    template, the custom formatter replaces every occurrence of each of
    the seven tokens, scanning from the left with [YYYY] tried before
    [YY], and emits every other character as it is.  [MM], [DD], [mm] and
    [ss] stand for the two-digit zero-padded month 01..12, day 01..31,
    minute and second 00..59 of the local time; [YYYY] stands for the
    decimal year of the era without padding, which has four digits if and
    only if the year lies in 1000..9999 (then [YY] is the year modulo 100
    on two digits), and [YY] for its last two characters.  [HH] stands
    for the hour string of the runtime: the two-digit zero-padded hour
    00..23 of the local time whenever the runtime's cycle is [h23] or the
    local time is outside the first hour of the day.  What [HH] is in
    the first hour under the [h24] cycle is the defect of C7; it is
    neither promised nor denied here. *)
Theorem formatCustomDate_scans_template
    (rt : Runtime) (date : Z) (template tz : string) (off : Z -> Z) :
  timeZoneOffset rt tz = Some off ->
  let lt := date + off date in
  let y := yearOfEra (Calendar.YearFromTime lt) in
  let mo := Calendar.MonthFromTime lt + 1 in
  let d := Calendar.DateFromTime lt in
  let h := Calendar.HourFromTime lt in
  let mi := Calendar.MinFromTime lt in
  let s := Calendar.SecFromTime lt in
  exists hour : string,
    formatCustomDate rt date template tz =
      Normal (Spec.substituteTokens
                (Spec.tokenRules (JS.toString y) (Spec.twoDigits mo) (Spec.twoDigits d)
                   hour (Spec.twoDigits mi) (Spec.twoDigits s))
                template)
    /\ (hourCycle24 rt = h23 \/ h <> 0 -> hour = Spec.twoDigits h)
    /\ 1 <= y /\ 1 <= mo <= 12 /\ 1 <= d <= 31 /\ 0 <= h <= 23
    /\ 0 <= mi <= 59 /\ 0 <= s <= 59
    /\ (String.length (JS.toString y) = 4%nat <-> 1000 <= y <= 9999)
    /\ (1000 <= y <= 9999 ->
        JS.toString y = Spec.fourDigits y /\
        Spec.lastTwo (JS.toString y) = Spec.twoDigits (y mod 100)).
Proof.
  intros Hz lt y mo d h mi s.
  pose proof (MonthFromTime_range lt) as Hmo.
  pose proof (DateFromTime_range lt) as Hd.
  pose proof (HourFromTime_range lt) as Hh. fold h in Hh.
  pose proof (MinFromTime_range lt) as Hmi.
  pose proof (SecFromTime_range lt) as Hs.
  assert (Hy : 1 <= y)
    by (unfold y, yearOfEra; destruct (Z.ltb_spec 0 (Calendar.YearFromTime lt)); lia).
  exists (pad2 (Spec.hourOfCycle (hourCycle24 rt) h)).
  split.
  { rewrite (formatCustomDate_passes rt date template tz off Hz).
    fold lt. fold y mo d h mi s.
    now rewrite !(pad2_twoDigits mo), !(pad2_twoDigits d), !(pad2_twoDigits mi),
      !(pad2_twoDigits s) by (subst mo d mi s; lia). }
  split.
  { intros Hc.
    assert (E : Spec.hourOfCycle (hourCycle24 rt) h = h).
    { destruct Hc as [->|Hn]; [reflexivity|].
      destruct (hourCycle24 rt); [reflexivity|]. cbn [Spec.hourOfCycle].
      destruct (Z.eqb_spec h 0); [contradiction | reflexivity]. }
    rewrite E. apply pad2_twoDigits. lia. }
  repeat (split; [subst mo d mi s; lia|]).
  split; [now apply toString_four_chars|].
  intros Hr. split.
  - apply toString_fourDigits. lia.
  - rewrite toString_fourDigits by lia. rewrite lastTwo_fourDigits.
    f_equal. Z.div_mod_to_equations. lia.
Qed.

Lemma formatCustomDate_scans_template_witness :
  timeZoneOffset node20 "UTC" = Some (fun _ => 0) /\
  formatCustomDate node20 1705314600000 "YYYY/MM/DD HH:mm" "UTC" =
    Normal "2024/01/15 10:30".
Proof.
  split; [reflexivity|].
  destruct (formatCustomDate_scans_template node20 1705314600000
              "YYYY/MM/DD HH:mm" "UTC" (fun _ => 0) eq_refl)
    as (hour & H & Hh & _).
  rewrite H, Hh; [reflexivity|].
  right. vm_compute. discriminate.
Defined.

(** C1 (as stated) fails: at 10:30 UTC on 1 January 999 the token [YYYY]
    is replaced by the three characters 999, not by a four-digit year. *)
Lemma custom_year_999_is_not_four_digits :
  formatCustomDate node20 (-30641722200000) "YYYY-MM-DD HH:mm:ss" "UTC" =
    Normal "999-01-01 10:30:00"
  /\ forall y : Z,
       formatCustomDate node20 (-30641722200000) "YYYY" "UTC" <>
       Normal (Spec.fourDigits y).
Proof.
  split; [reflexivity|].
  intros y. change (Normal "999" <> Normal (Spec.fourDigits y)).
  unfold Spec.fourDigits, Spec.threeDigits, Spec.twoDigits. discriminate.
Qed.

(** ** C7 *)

(** With the [h23] cycle the [HH] token is a two-digit hour 00..23. *)
Theorem custom_hour_h23 (rt : Runtime) (date : Z) (tz : string) (off : Z -> Z) :
  timeZoneOffset rt tz = Some off ->
  hourCycle24 rt = h23 ->
  let h := Calendar.HourFromTime (date + off date) in
  formatCustomDate rt date "HH" tz = Normal (Spec.twoDigits h) /\ 0 <= h <= 23.
Proof.
  intros Hz Hc h. split; [|apply HourFromTime_range].
  rewrite (formatCustomDate_passes rt date "HH" tz off Hz), Hc.
  cbn [Spec.hourOfCycle]. fold h.
  rewrite (pad2_twoDigits h) by (pose proof (HourFromTime_range (date + off date)); lia).
  reflexivity.
Qed.

(** With the [h24] cycle every instant of the first hour of a local day
    gets 24 for [HH]. *)
Theorem custom_hour_h24_midnight (rt : Runtime) (date : Z) (tz : string) (off : Z -> Z) :
  timeZoneOffset rt tz = Some off ->
  hourCycle24 rt = h24 ->
  Calendar.HourFromTime (date + off date) = 0 ->
  formatCustomDate rt date "HH" tz = Normal "24".
Proof.
  intros Hz Hc H0.
  rewrite (formatCustomDate_passes rt date "HH" tz off Hz), Hc, H0.
  reflexivity.
Qed.

(** C7, at the failing input: on Node 20, at midnight UTC of 15 January
    2024, the custom formatter writes the hour as 24, where the claim
    wants 00. *)
Theorem custom_hour_midnight_node20 :
  formatCustomDate node20 1705276800000 "HH" "UTC" = Normal "24"
  /\ formatCustomDate node20 1705276800000 "YYYY-MM-DD HH:mm:ss" "UTC" =
       Normal "2024-01-15 24:00:00"
  /\ formatCustomDate h23Runtime 1705276800000 "HH" "UTC" = Normal "00".
Proof. repeat split; reflexivity. Qed.

(** ** The selectors *)

Lemma usesZone_In format : usesZone format = true <-> In format Spec.localSelectors.
Proof.
  unfold usesZone. rewrite existsb_exists. split.
  - intros [x [Hx E]]. apply String.eqb_eq in E. now subst.
  - intros H. exists format. split; [assumption | apply String.eqb_refl].
Qed.

Local Ltac selector format k :=
  let E := fresh "E" in
  destruct (String.eqb format k) eqn:E;
  [apply String.eqb_eq in E; subst format | apply String.eqb_neq in E].

(** A selector that does not render local time never throws. *)
Lemma formatDateTime_no_zone rt cfg date format tz :
  usesZone format = false ->
  formatDateTime rt cfg date format tz =
  Normal (if String.eqb format "unix" then JS.toString (date / 1000)
          else if String.eqb format "unix_ms" then JS.toString date
          else Date_.toISOString date).
Proof.
  intros H. unfold formatDateTime.
  selector format "iso"; [reflexivity|].
  selector format "unix"; [reflexivity|].
  selector format "unix_ms"; [reflexivity|].
  selector format "human"; [discriminate|].
  selector format "date"; [discriminate|].
  selector format "time"; [discriminate|].
  selector format "custom"; [discriminate|].
  reflexivity.
Qed.

(** A selector that renders local time throws exactly on a zone the
    database does not resolve, with the runtime's message. *)
Lemma formatDateTime_zone rt cfg date format tz :
  usesZone format = true ->
  match timeZoneOffset rt tz with
  | Some _ => exists s, formatDateTime rt cfg date format tz = Normal s
  | None => formatDateTime rt cfg date format tz = Throw (invalidTimeZoneMessage rt tz)
  end.
Proof.
  intros H. unfold formatDateTime.
  selector format "iso"; [discriminate|].
  selector format "unix"; [discriminate|].
  selector format "unix_ms"; [discriminate|].
  unfold toLocaleDateString, toLocaleTimeString, toLocaleString,
    formatCustomDate, construct.
  cbn [timeZone onlyTimeZone].
  selector format "human"; [destruct (timeZoneOffset rt tz); cbn [bindC]; eauto|].
  selector format "date"; [destruct (timeZoneOffset rt tz); cbn [bindC]; eauto|].
  selector format "time"; [destruct (timeZoneOffset rt tz); cbn [bindC]; eauto|].
  selector format "custom"; [destruct (timeZoneOffset rt tz); cbn [bindC]; eauto|].
  unfold usesZone in H. simpl in H.
  apply String.eqb_neq in E2, E3, E4, E5. rewrite E2, E3, E4, E5 in H. discriminate.
Qed.

(** ** C2 *)

(** C2.  For every instant and every time zone, a selector outside the
    enumeration is formatted exactly as [iso] is: the call returns the
    same string and does not throw. *)
Theorem unknown_selector_renders_iso
    (rt : Runtime) (cfg : Config) (date : Z) (format tz : string) :
  ~ In format Spec.knownSelectors ->
  formatDateTime rt cfg date format tz = formatDateTime rt cfg date "iso" tz
  /\ formatDateTime rt cfg date format tz = Normal (Date_.toISOString date).
Proof.
  intros Hn.
  assert (Hu : usesZone format = false).
  { destruct (usesZone format) eqn:E; [|reflexivity].
    apply usesZone_In in E. exfalso. apply Hn.
    simpl in *. intuition. }
  rewrite (formatDateTime_no_zone _ _ _ _ _ Hu).
  selector format "unix"; [exfalso; apply Hn; simpl; auto|].
  selector format "unix_ms"; [exfalso; apply Hn; simpl; auto|].
  split; reflexivity.
Qed.

Lemma unknown_selector_renders_iso_witness :
  ~ In "bogus-value" Spec.knownSelectors /\
  formatDateTime node20 defaultConfig 1705314600000 "bogus-value" "Not/AZone" =
    Normal "2024-01-15T10:30:00.000Z".
Proof.
  assert (Hn : ~ In "bogus-value" Spec.knownSelectors)
    by (simpl; intros H; repeat (destruct H as [H|H]; [discriminate|]); exact H).
  split; [exact Hn|].
  destruct (unknown_selector_renders_iso node20 defaultConfig 1705314600000
              "bogus-value" "Not/AZone" Hn) as [_ H].
  rewrite H. reflexivity.
Defined.

(** ** C3 *)

(** The outcome of [formatDateTime] by selector and zone. *)
Lemma formatDateTime_outcome rt cfg date format tz :
  ((exists m, formatDateTime rt cfg date format tz = Throw m) <->
   (timeZoneOffset rt tz = None /\ In format Spec.localSelectors))
  /\ (forall m, formatDateTime rt cfg date format tz = Throw m ->
        m = invalidTimeZoneMessage rt tz)
  /\ (In format ["iso"; "unix"; "unix_ms"] ->
        exists s, formatDateTime rt cfg date format tz = Normal s).
Proof.
  destruct (usesZone format) eqn:Hu.
  - pose proof (formatDateTime_zone rt cfg date format tz Hu) as Hz.
    apply usesZone_In in Hu.
    destruct (timeZoneOffset rt tz) as [off|].
    + destruct Hz as [s Hs]. rewrite Hs. split; [split|split].
      * intros [m Hm]. discriminate.
      * intros [Hm _]. discriminate.
      * intros m Hm. discriminate.
      * eauto.
    + rewrite Hz. split; [split|split].
      * auto.
      * eauto.
      * intros m Hm. now injection Hm as <-.
      * intros H. exfalso. simpl in H, Hu.
        repeat (destruct H as [H|H]; [subst format;
          repeat (destruct Hu as [Hu|Hu]; [discriminate|]); exact Hu|]).
        exact H.
  - rewrite (formatDateTime_no_zone _ _ _ _ _ Hu). split; [split|split].
    + intros [m Hm]. discriminate.
    + intros [_ Hin]. apply usesZone_In in Hin. congruence.
    + intros m Hm. discriminate.
    + eauto.
Qed.

Lemma get_current_time_unfold rt cfg args now :
  handleCallTool rt cfg "get_current_time" args now =
  caught (formatDateTime rt cfg now (effectiveFormat cfg args)
            (effectiveTimezone cfg args)).
Proof. reflexivity. Qed.

(** C3.  For every instant and every selector, formatting throws if and
    only if the effective zone is not resolvable and the selector is one
    of [human], [date], [time], [custom]; the error thrown carries the
    runtime's message about the zone, and the handler returns it after
    "Error formatting date: " in a result flagged as an error, which it
    does in that case only; [iso], [unix] and [unix_ms] return a string
    whatever the zone. *)
Theorem formatting_fails_iff_zone_unresolved
    (rt : Runtime) (cfg : Config) (date : Z) (format tz : string)
    (args : option (gmap string string)) :
  ((exists m, formatDateTime rt cfg date format tz = Throw m) <->
   (timeZoneOffset rt tz = None /\ In format Spec.localSelectors))
  /\ (forall m, formatDateTime rt cfg date format tz = Throw m ->
        m = invalidTimeZoneMessage rt tz)
  /\ (In format ["iso"; "unix"; "unix_ms"] ->
        exists s, formatDateTime rt cfg date format tz = Normal s)
  /\ (isError (handleCallTool rt cfg "get_current_time" args date) = true <->
      (timeZoneOffset rt (effectiveTimezone cfg args) = None /\
       In (effectiveFormat cfg args) Spec.localSelectors))
  /\ (isError (handleCallTool rt cfg "get_current_time" args date) = true ->
      text (handleCallTool rt cfg "get_current_time" args date) =
        "Error formatting date: " +:+
        invalidTimeZoneMessage rt (effectiveTimezone cfg args)).
Proof.
  destruct (formatDateTime_outcome rt cfg date format tz) as [H1 [H2 H3]].
  split; [exact H1|]. split; [exact H2|]. split; [exact H3|].
  rewrite get_current_time_unfold.
  destruct (formatDateTime_outcome rt cfg date
              (effectiveFormat cfg args) (effectiveTimezone cfg args))
    as [Hiff [Hmsg _]].
  destruct (formatDateTime rt cfg date (effectiveFormat cfg args)
              (effectiveTimezone cfg args)) as [s|m] eqn:E; cbn [caught isError text].
  - split; [split|]; try discriminate.
    intros H. apply Hiff in H as [m Hm]. discriminate.
  - rewrite (Hmsg m eq_refl). split; [split|]; auto.
    intros _. apply Hiff. eauto.
Qed.

(** ** C4 *)

(** C4 (as amended).  For every instant, before the epoch too, the [unix]
    selector returns the decimal numeral of the floor of the millisecond
    count divided by 1000: the whole seconds [q] with
    [1000 q <= t < 1000 q + 1000].  That is the quotient truncated toward
    zero when the instant is at or after the epoch or on a second
    boundary, and one less otherwise. *)
Theorem unix_is_floor_of_seconds
    (rt : Runtime) (cfg : Config) (date : Z) (tz : string) :
  formatDateTime rt cfg date "unix" tz = Normal (JS.toString (date / 1000))
  /\ 1000 * (date / 1000) <= date < 1000 * (date / 1000) + 1000
  /\ date / 1000 =
       (if (0 <=? date) || (date mod 1000 =? 0)
        then Spec.truncSeconds date
        else Spec.truncSeconds date - 1).
Proof.
  split; [reflexivity|]. split.
  - Z.div_mod_to_equations. lia.
  - unfold Spec.truncSeconds.
    destruct (Z.leb_spec 0 date) as [H|H]; cbn [orb].
    + rewrite Z.quot_div_nonneg by lia. reflexivity.
    + destruct (Z.eqb_spec (date mod 1000) 0) as [E|E];
        Z.to_euclidean_division_equations; lia.
Qed.

(** C4 (as stated) fails one millisecond before the epoch: the selector
    returns -1, the truncation toward zero of -1/1000 is 0. *)
Lemma unix_before_epoch_is_not_truncated :
  formatDateTime node20 defaultConfig (-1) "unix" "UTC" = Normal "-1"
  /\ JS.toString (Spec.truncSeconds (-1)) = "0"
  /\ formatDateTime node20 defaultConfig (-1) "unix" "UTC" <>
       Normal (JS.toString (Spec.truncSeconds (-1))).
Proof. repeat split; try reflexivity. discriminate. Qed.

(** ** C5 *)

(** C5.  For every instant the numbers written by [unix] and [unix_ms]
    satisfy unix = floor (unix_ms / 1000), and unix_ms = unix * 1000 when
    the instant is on a second boundary. *)
Theorem unix_and_unix_ms_agree
    (rt : Runtime) (cfg : Config) (date : Z) (tz tz' : string) :
  exists (su sm : string) (u m : Z),
    formatDateTime rt cfg date "unix" tz = Normal su
    /\ formatDateTime rt cfg date "unix_ms" tz' = Normal sm
    /\ JS.parseDecimal su = Some u
    /\ JS.parseDecimal sm = Some m
    /\ m = date
    /\ u = m / 1000
    /\ 1000 * u <= m < 1000 * u + 1000
    /\ (date mod 1000 = 0 -> m = u * 1000).
Proof.
  exists (JS.toString (date / 1000)), (JS.toString date), (date / 1000), date.
  repeat split; try reflexivity; try apply parseDecimal_toString;
    try (Z.div_mod_to_equations; lia).
Qed.

(** The literal scenario of the specification. *)
Example unix_and_unix_ms_scenario :
  formatDateTime node20 defaultConfig 1705314600000 "unix" "UTC" = Normal "1705314600"
  /\ formatDateTime node20 defaultConfig 1705314600000 "unix_ms" "UTC" =
       Normal "1705314600000".
Proof. split; reflexivity. Qed.

(** ** C6 *)

Lemma or_else_resolve a b fallback :
  JS.or_else a (JS.or_else b fallback) = Spec.resolve a b fallback.
Proof.
  unfold Spec.resolve, Spec.nonEmpty, JS.or_else.
  destruct a as [[|c s]|]; destruct b as [[|c' s']|]; reflexivity.
Qed.

(** C6.  For every request, environment and runtime, the effective format
    and time zone are, field by field, the value of that field in the
    per-call arguments when it is present and non-empty, otherwise the
    value of the environment (an empty one counting as unset), otherwise
    the built-in fallback: "iso", the host's zone, and for the template,
    which has no per-call layer, "YYYY-MM-DD HH:mm:ss".  A call without
    arguments has no per-call layer at all.  Nothing is validated: any
    non-empty per-call string is the effective value, and the resolved
    pair is what [formatDateTime] is called with. *)
Theorem effective_config_precedence
    (rt : Runtime) (env : gmap string string) (a : gmap string string) (now : Z) :
  let cfg := loadConfig rt env in
  let format := Spec.resolve (a !! "format") (env !! "DATETIME_FORMAT") "iso" in
  let timezone := Spec.resolve (a !! "timezone") (env !! "TIMEZONE") (hostTimeZone rt) in
  let format0 := Spec.resolve None (env !! "DATETIME_FORMAT") "iso" in
  let timezone0 := Spec.resolve None (env !! "TIMEZONE") (hostTimeZone rt) in
  effectiveFormat cfg (Some a) = format
  /\ effectiveTimezone cfg (Some a) = timezone
  /\ effectiveFormat cfg None = format0
  /\ effectiveTimezone cfg None = timezone0
  /\ DATE_FORMAT_STRING cfg =
       Spec.resolve None (env !! "DATE_FORMAT_STRING") "YYYY-MM-DD HH:mm:ss"
  /\ (forall c s, a !! "format" = Some (String c s) -> format = String c s)
  /\ (forall c s, a !! "timezone" = Some (String c s) -> timezone = String c s)
  /\ handleCallTool rt cfg "get_current_time" (Some a) now =
       caught (formatDateTime rt cfg now format timezone)
  /\ handleCallTool rt cfg "get_current_time" None now =
       caught (formatDateTime rt cfg now format0 timezone0).
Proof.
  cbn zeta.
  assert (Ef : forall args, effectiveFormat (loadConfig rt env) args =
             Spec.resolve (getArg args "format") (env !! "DATETIME_FORMAT") "iso")
    by (intros; unfold effectiveFormat, loadConfig; cbn [DATETIME_FORMAT];
        apply or_else_resolve).
  assert (Ez : forall args, effectiveTimezone (loadConfig rt env) args =
             Spec.resolve (getArg args "timezone") (env !! "TIMEZONE") (hostTimeZone rt))
    by (intros; unfold effectiveTimezone, loadConfig; cbn [TIMEZONE];
        apply or_else_resolve).
  split; [apply (Ef (Some a))|]. split; [apply (Ez (Some a))|].
  split; [apply (Ef None)|]. split; [apply (Ez None)|].
  split.
  { unfold Spec.resolve, Spec.nonEmpty, JS.or_else. cbn [loadConfig DATE_FORMAT_STRING].
    destruct (env !! "DATE_FORMAT_STRING") as [[|c s]|]; reflexivity. }
  split; [intros c s H; now rewrite H|].
  split; [intros c s H; now rewrite H|].
  rewrite !get_current_time_unfold, !Ef, !Ez. split; reflexivity.
Qed.

(** C6 at concrete records: the per-call value wins over the environment,
    an empty per-call value gives way to the environment, and an empty
    environment value to the fallback. *)
Lemma effective_config_precedence_witness :
  let env : gmap string string := {[ "DATETIME_FORMAT" := "unix"; "TIMEZONE" := "" ]} in
  let cfg := loadConfig node20 env in
  handleCallTool node20 cfg "get_current_time"
    (Some {[ "format" := "date"; "timezone" := "Asia/Tokyo" ]}) 1705330800000 =
    {| text := "2024-01-16"; isError := false |}
  /\ handleCallTool node20 cfg "get_current_time"
       (Some {[ "format" := ""; "timezone" := "Not/AZone" ]}) 1705330800000 =
     {| text := "1705330800"; isError := false |}
  /\ handleCallTool node20 cfg "get_current_time"
       (Some {[ "format" := "time" ]}) 1705330800000 =
     {| text := "15:00:00"; isError := false |}
  /\ handleCallTool node20 cfg "get_current_time" None 1705330800000 =
     {| text := "1705330800"; isError := false |}.
Proof.
  intros env cfg.
  pose proof (effective_config_precedence node20 env
                {[ "format" := "date"; "timezone" := "Asia/Tokyo" ]} 1705330800000)
    as (_ & _ & _ & _ & _ & _ & _ & H1 & H4).
  pose proof (effective_config_precedence node20 env
                {[ "format" := ""; "timezone" := "Not/AZone" ]} 1705330800000)
    as (_ & _ & _ & _ & _ & _ & _ & H2 & _).
  pose proof (effective_config_precedence node20 env
                {[ "format" := "time" ]} 1705330800000)
    as (_ & _ & _ & _ & _ & _ & _ & H3 & _).
  cbn zeta in H1, H2, H3, H4. fold env in H1, H2, H3, H4. fold cfg in H1, H2, H3, H4.
  rewrite H1, H2, H3, H4. repeat split; vm_compute; reflexivity.
Defined.

(** ** C8 *)

(** The date arithmetic of the runtime against the calendar. *)

Lemma isLeap_leapYear y : Calendar.isLeap y = Gregorian.leapYear y.
Proof.
  unfold Calendar.isLeap, Gregorian.leapYear.
  destruct (Z.eqb_spec (y mod 4) 0), (Z.eqb_spec (y mod 100) 0),
    (Z.eqb_spec (y mod 400) 0); cbn [andb orb negb]; try reflexivity;
    exfalso; Z.div_mod_to_equations; lia.
Qed.

Lemma DayFromYear_daysBeforeYear y :
  Calendar.DayFromYear y = Gregorian.daysBeforeYear y.
Proof.
  unfold Calendar.DayFromYear, Gregorian.daysBeforeYear, Gregorian.leapYearsBefore.
  Z.div_mod_to_equations. lia.
Qed.

(** The year lengths of the calendar: what pins [daysBeforeYear]. *)
Lemma daysBeforeYear_next y :
  Gregorian.daysBeforeYear (y + 1) =
  Gregorian.daysBeforeYear y + (if Gregorian.leapYear y then 366 else 365).
Proof.
  rewrite <- !DayFromYear_daysBeforeYear, <- isLeap_leapYear.
  apply DayFromYear_next.
Qed.

Lemma monthStart_daysBeforeMonth y m :
  0 <= m <= 11 ->
  Calendar.monthStart m (if Gregorian.leapYear y then 1 else 0) =
  Gregorian.daysBeforeMonth y (m + 1).
Proof.
  intros Hm.
  assert (Hc : m = 0 \/ m = 1 \/ m = 2 \/ m = 3 \/ m = 4 \/ m = 5 \/ m = 6 \/
               m = 7 \/ m = 8 \/ m = 9 \/ m = 10 \/ m = 11) by lia.
  unfold Gregorian.daysBeforeMonth, Gregorian.daysInMonth.
  repeat (destruct Hc as [->|Hc]; [destruct (Gregorian.leapYear y); reflexivity|]).
  subst m. destruct (Gregorian.leapYear y); reflexivity.
Qed.

(** The day within the year falls inside the month the table gives. *)
Lemma monthOf_within y d :
  let l := if Gregorian.leapYear y then 1 else 0 in
  0 <= d < 365 + l ->
  1 <= d - Calendar.monthStart (Calendar.monthOf d l) l + 1
    <= Gregorian.daysInMonth y (Calendar.monthOf d l + 1).
Proof.
  cbn zeta. intros Hd. unfold Calendar.monthOf.
  destruct (Gregorian.leapYear y) eqn:El;
    repeat match goal with
    | |- context [if ?a <? ?b then _ else _] =>
        let E := fresh in destruct (Z.ltb_spec a b) as [E|E]
    end;
    cbn [Calendar.monthStart];
    match goal with
    | |- context [Gregorian.daysInMonth y ?k] =>
        let v := eval cbv in k in change k with v
    end;
    cbn [Gregorian.daysInMonth]; rewrite ?El; lia.
Qed.

Lemma fields_of_the_calendar t :
  1 <= Calendar.DateFromTime t
    <= Gregorian.daysInMonth (Calendar.YearFromTime t) (Calendar.MonthFromTime t + 1)
  /\ Gregorian.instantOf (Calendar.YearFromTime t) (Calendar.MonthFromTime t + 1)
       (Calendar.DateFromTime t) (Calendar.HourFromTime t) (Calendar.MinFromTime t)
       (Calendar.SecFromTime t) (Calendar.msFromTime t) = t.
Proof.
  pose proof (DayWithinYear_range t) as Hd. rewrite InLeapYear_days in Hd.
  assert (El : Calendar.InLeapYear t =
               if Gregorian.leapYear (Calendar.YearFromTime t) then 1 else 0)
    by (unfold Calendar.InLeapYear; now rewrite isLeap_leapYear).
  split.
  - unfold Calendar.DateFromTime, Calendar.MonthFromTime. rewrite El in *.
    now apply monthOf_within.
  - unfold Gregorian.instantOf, Gregorian.dayNumber.
    rewrite <- DayFromYear_daysBeforeYear.
    rewrite <- monthStart_daysBeforeMonth by apply MonthFromTime_range.
    rewrite <- El.
    replace (Calendar.DayFromYear (Calendar.YearFromTime t) +
             Calendar.monthStart (Calendar.MonthFromTime t) (Calendar.InLeapYear t) +
             (Calendar.DateFromTime t - 1))
      with (Calendar.Day t)
      by (unfold Calendar.DateFromTime, Calendar.DayWithinYear; lia).
    unfold Calendar.Day, Calendar.HourFromTime, Calendar.MinFromTime,
      Calendar.SecFromTime, Calendar.msFromTime, Calendar.msPerDay,
      Calendar.msPerHour, Calendar.msPerMinute, Calendar.msPerSecond.
    Z.div_mod_to_equations. lia.
Qed.

(** C8.  For every instant the [iso] selector returns [toISOString] of
    it, whatever the time zone field: "Y-MM-DDTHH:mm:ss.sssZ" with the
    year (four digits in 0..9999, else a sign and six digits), month,
    day, hour, minute, second and millisecond zero-padded, where these
    fields are the date and the clock time of the instant at offset zero
    in the Gregorian calendar: the month is in 1..12, the day is a day of
    that month of that year (February has 29 days in leap years only),
    the clock fields are in their ranges, and the date and time so named
    are the instant to the millisecond.  The calendar is the one in which
    1 January 1970 is day 0 and a year has 366 days if it is a multiple
    of 4 and not of 100, or a multiple of 400, and 365 otherwise.  For
    2024-01-15T10:30:00.000Z, the time value 1705314600000, the string is
    "2024-01-15T10:30:00.000Z". *)
Theorem iso_is_utc_rendering
    (rt : Runtime) (cfg : Config) (date : Z) (tz tz' : string) :
  let y := Calendar.YearFromTime date in
  let mo := Calendar.MonthFromTime date + 1 in
  let d := Calendar.DateFromTime date in
  let h := Calendar.HourFromTime date in
  let mi := Calendar.MinFromTime date in
  let s := Calendar.SecFromTime date in
  let ms := Calendar.msFromTime date in
  formatDateTime rt cfg date "iso" tz = Normal (Date_.toISOString date)
  /\ formatDateTime rt cfg date "iso" tz' = formatDateTime rt cfg date "iso" tz
  /\ Date_.toISOString date =
       Date_.isoYear y +:+ "-" +:+ Spec.twoDigits mo +:+ "-" +:+
       Spec.twoDigits d +:+ "T" +:+ Spec.twoDigits h +:+ ":" +:+
       Spec.twoDigits mi +:+ ":" +:+ Spec.twoDigits s +:+ "." +:+
       Spec.threeDigits ms +:+ "Z"
  /\ Date_.isoYear y =
       (if (0 <=? y) && (y <=? 9999) then Spec.fourDigits y
        else (if y <? 0 then "-" else "+") +:+ Date_.pad 6 (Z.abs y))
  /\ Gregorian.instantOf y mo d h mi s ms = date
  /\ 1 <= mo <= 12 /\ 1 <= d <= Gregorian.daysInMonth y mo /\ 0 <= h <= 23
  /\ 0 <= mi <= 59 /\ 0 <= s <= 59 /\ 0 <= ms <= 999
  /\ Gregorian.dayNumber 1970 1 1 = 0
  /\ (forall y', Gregorian.dayNumber (y' + 1) 1 1 =
                 Gregorian.dayNumber y' 1 1 +
                 (if Gregorian.leapYear y' then 366 else 365))
  /\ formatDateTime rt cfg 1705314600000 "iso" tz = Normal "2024-01-15T10:30:00.000Z".
Proof.
  intros y mo d h mi s ms.
  pose proof (MonthFromTime_range date) as Hmo.
  pose proof (DateFromTime_range date) as Hd.
  pose proof (HourFromTime_range date) as Hh.
  pose proof (MinFromTime_range date) as Hmi.
  pose proof (SecFromTime_range date) as Hs.
  pose proof (msFromTime_range date) as Hms.
  destruct (fields_of_the_calendar date) as [Hday Hinst].
  split; [reflexivity|]. split; [reflexivity|]. split.
  { unfold Date_.toISOString. fold y d h mi s ms.
    change (Date_.pad 2) with pad2.
    now rewrite !pad2_twoDigits, pad3_threeDigits by (subst mo d h mi s ms; lia). }
  split.
  { unfold Date_.isoYear.
    destruct (Z.leb_spec 0 y), (Z.leb_spec y 9999); cbn [andb]; try reflexivity.
    apply pad4_fourDigits. lia. }
  split; [exact Hinst|].
  split; [subst mo; lia|]. split; [exact Hday|].
  repeat (split; [subst h mi s ms; lia|]).
  split; [reflexivity|].
  split; [|reflexivity].
  intros y'. unfold Gregorian.dayNumber.
  rewrite daysBeforeYear_next.
  change (Gregorian.daysBeforeMonth (y' + 1) 1) with 0.
  change (Gregorian.daysBeforeMonth y' 1) with 0. lia.
Qed.

(** C8 at the ends of February and of the year, in leap years (2024,
    2000), in years that are not (2023, 1900, 2100), and before the
    epoch. *)
Lemma iso_is_utc_rendering_witness :
  formatDateTime node20 defaultConfig 1677628799999 "iso" "UTC" =
    Normal "2023-02-28T23:59:59.999Z"
  /\ formatDateTime node20 defaultConfig 1677628800000 "iso" "Asia/Tokyo" =
    Normal "2023-03-01T00:00:00.000Z"
  /\ formatDateTime node20 defaultConfig 1709164800000 "iso" "Not/AZone" =
    Normal "2024-02-29T00:00:00.000Z"
  /\ formatDateTime node20 defaultConfig 951782400000 "iso" "UTC" =
    Normal "2000-02-29T00:00:00.000Z"
  /\ formatDateTime node20 defaultConfig (-2203891200000) "iso" "UTC" =
    Normal "1900-03-01T00:00:00.000Z"
  /\ formatDateTime node20 defaultConfig 4107542400000 "iso" "UTC" =
    Normal "2100-03-01T00:00:00.000Z"
  /\ formatDateTime node20 defaultConfig 1735689599999 "iso" "UTC" =
    Normal "2024-12-31T23:59:59.999Z"
  /\ formatDateTime node20 defaultConfig (-1) "iso" "UTC" =
    Normal "1969-12-31T23:59:59.999Z"
  /\ Gregorian.instantOf 2023 3 1 0 0 0 0 = 1677628800000
  /\ Gregorian.instantOf 2024 2 29 0 0 0 0 = 1709164800000
  /\ Gregorian.daysInMonth 2023 2 = 28.
Proof.
  pose proof (iso_is_utc_rendering node20 defaultConfig 1677628799999 "UTC" "UTC")
    as (H1 & _).
  pose proof (iso_is_utc_rendering node20 defaultConfig 1677628800000 "Asia/Tokyo" "UTC")
    as (H2 & _ & _ & _ & I2 & _).
  pose proof (iso_is_utc_rendering node20 defaultConfig 1709164800000 "Not/AZone" "UTC")
    as (H3 & _ & _ & _ & I3 & _).
  pose proof (iso_is_utc_rendering node20 defaultConfig 951782400000 "UTC" "UTC")
    as (H4 & _).
  pose proof (iso_is_utc_rendering node20 defaultConfig (-2203891200000) "UTC" "UTC")
    as (H5 & _).
  pose proof (iso_is_utc_rendering node20 defaultConfig 4107542400000 "UTC" "UTC")
    as (H6 & _).
  pose proof (iso_is_utc_rendering node20 defaultConfig 1735689599999 "UTC" "UTC")
    as (H7 & _).
  pose proof (iso_is_utc_rendering node20 defaultConfig (-1) "UTC" "UTC")
    as (H8 & _).
  rewrite H1, H2, H3, H4, H5, H6, H7, H8.
  repeat split; vm_compute; reflexivity.
Defined.

(** ** C9 *)

(** C9.  Two [custom] requests with the same instant, the same effective
    time zone and the same process-wide configuration return the same
    result, whatever else their argument records hold: the template is
    [DATE_FORMAT_STRING] of the configuration. *)
Theorem custom_template_is_process_wide
    (rt : Runtime) (cfg : Config) (now : Z)
    (args1 args2 : option (gmap string string)) :
  effectiveFormat cfg args1 = "custom" ->
  effectiveFormat cfg args2 = "custom" ->
  effectiveTimezone cfg args1 = effectiveTimezone cfg args2 ->
  handleCallTool rt cfg "get_current_time" args1 now =
    handleCallTool rt cfg "get_current_time" args2 now
  /\ handleCallTool rt cfg "get_current_time" args1 now =
       caught (formatCustomDate rt now (DATE_FORMAT_STRING cfg)
                 (effectiveTimezone cfg args1)).
Proof.
  intros H1 H2 Hz. rewrite !get_current_time_unfold, H1, H2, Hz.
  split; reflexivity.
Qed.

Lemma custom_template_is_process_wide_witness :
  let args1 : option (gmap string string) :=
    Some {[ "format" := "custom"; "timezone" := "Asia/Tokyo"; "template" := "DD/MM/YY" ]} in
  let args2 : option (gmap string string) :=
    Some {[ "format" := "custom"; "timezone" := "Asia/Tokyo" ]} in
  handleCallTool node20 defaultConfig "get_current_time" args1 1705314600000 =
    handleCallTool node20 defaultConfig "get_current_time" args2 1705314600000
  /\ handleCallTool node20 defaultConfig "get_current_time" args1 1705314600000 =
       {| text := "2024-01-15 19:30:00"; isError := false |}.
Proof.
  intros args1 args2.
  destruct (custom_template_is_process_wide node20 defaultConfig 1705314600000
              args1 args2 eq_refl eq_refl eq_refl) as [H1 H2].
  split; [exact H1|]. rewrite H2. reflexivity.
Defined.

(** ** C10 *)

(** C10.  For every instant and whatever the arguments, [get_timestamp]
    returns a result that is not an error; its text is the numeral of the
    millisecond count exactly when the [unit] field of the arguments is
    the string "milliseconds", and of the floor of the count divided by
    1000 for every other unit: absent (or no arguments at all), "seconds"
    or unknown. *)
Theorem get_timestamp_by_unit
    (rt : Runtime) (cfg : Config) (a : gmap string string) (now : Z) :
  let r := handleCallTool rt cfg "get_timestamp" (Some a) now in
  let r0 := handleCallTool rt cfg "get_timestamp" None now in
  isError r = false
  /\ isError r0 = false
  /\ text r =
       JS.toString (if decide (a !! "unit" = Some "milliseconds")
                    then now else now / 1000)
  /\ text r0 = JS.toString (now / 1000)
  /\ 1000 * (now / 1000) <= now < 1000 * (now / 1000) + 1000.
Proof.
  cbn zeta. split; [reflexivity|]. split; [reflexivity|].
  split; [|split; [reflexivity | Z.div_mod_to_equations; lia]].
  change (handleCallTool rt cfg "get_timestamp" (Some a) now) with
    {| text := JS.toString
         (if String.eqb (JS.or_else (a !! "unit") "seconds") "milliseconds"
          then Date_.getTime now else JS.floorDiv (Date_.getTime now) 1000);
       isError := false |}.
  cbn [text]. unfold Date_.getTime, JS.floorDiv. f_equal.
  destruct (a !! "unit") as [u|] eqn:E.
  - destruct (decide (Some u = Some "milliseconds")) as [Heq|Hne].
    + injection Heq as ->. reflexivity.
    + destruct u as [|c u]; [reflexivity|]. cbn [JS.or_else].
      destruct (String.eqb (String c u) "milliseconds") eqn:Eq; [|reflexivity].
      apply String.eqb_eq in Eq. congruence.
  - destruct (decide (None = Some "milliseconds")); [discriminate | reflexivity].
Qed.

(** C10 at concrete records. *)
Lemma get_timestamp_by_unit_witness :
  text (handleCallTool node20 defaultConfig "get_timestamp"
          (Some {[ "unit" := "milliseconds" ]}) 1705314600123) = "1705314600123"
  /\ text (handleCallTool node20 defaultConfig "get_timestamp"
             (Some {[ "unit" := "seconds" ]}) 1705314600123) = "1705314600"
  /\ text (handleCallTool node20 defaultConfig "get_timestamp"
             (Some {[ "unit" := "fortnights"; "format" := "unix_ms" ]}) (-1)) = "-1".
Proof.
  pose proof (get_timestamp_by_unit node20 defaultConfig
                {[ "unit" := "milliseconds" ]} 1705314600123) as (_ & _ & H1 & _).
  pose proof (get_timestamp_by_unit node20 defaultConfig
                {[ "unit" := "seconds" ]} 1705314600123) as (_ & _ & H2 & _).
  pose proof (get_timestamp_by_unit node20 defaultConfig
                {[ "unit" := "fortnights"; "format" := "unix_ms" ]} (-1)) as (_ & _ & H3 & _).
  cbn zeta in H1, H2, H3. rewrite H1, H2, H3.
  repeat split; vm_compute; reflexivity.
Defined.

(** The literal scenarios of the timestamp operation. *)
Example get_timestamp_scenarios :
  handleCallTool node20 defaultConfig "get_timestamp"
    (Some {[ "unit" := "milliseconds" ]}) 1705314600123 =
    {| text := "1705314600123"; isError := false |}
  /\ handleCallTool node20 defaultConfig "get_timestamp"
       (Some {[ "unit" := "fortnights" ]}) 1705314600123 =
       {| text := "1705314600"; isError := false |}
  /\ handleCallTool node20 defaultConfig "get_timestamp" None (-1) =
       {| text := "-1"; isError := false |}.
Proof. repeat split; vm_compute; reflexivity. Qed.

(** ** The literal scenarios of the specification (instant
    2024-01-15T10:30:00.000Z) *)

Example scenario_date :
  formatDateTime node20 defaultConfig 1705314600000 "date" "UTC" = Normal "2024-01-15".
Proof. reflexivity. Qed.

Example scenario_time :
  formatDateTime node20 defaultConfig 1705314600000 "time" "UTC" = Normal "10:30:00".
Proof. reflexivity. Qed.

Example scenario_custom :
  formatDateTime node20
    (loadConfig node20 {[ "DATE_FORMAT_STRING" := "YYYY/MM/DD HH:mm" ]})
    1705314600000 "custom" "UTC" = Normal "2024/01/15 10:30".
Proof. vm_compute. reflexivity. Qed.

Example scenario_bad_zone :
  formatDateTime node20 defaultConfig 1705314600000 "time" "Not/AZone" =
    Throw "Invalid time zone specified: Not/AZone"
  /\ handleCallTool node20 defaultConfig "get_current_time"
       (Some {[ "format" := "date"; "timezone" := "Not/AZone" ]}) 1705314600000 =
     {| text := "Error formatting date: Invalid time zone specified: Not/AZone";
        isError := true |}
  /\ handleCallTool node20 defaultConfig "get_current_time"
       (Some {[ "format" := "unix"; "timezone" := "Not/AZone" ]}) 1705314600000 =
     {| text := "1705314600"; isError := false |}.
Proof. repeat split; vm_compute; reflexivity. Qed.

Example scenario_overlapping_tokens :
  formatCustomDate node20 1705314600000 "YYYYY YYY MMM [Hmm] ssss" "Asia/Tokyo" =
    Normal "2024Y 24Y 01M [H30] 0000".
Proof. reflexivity. Qed.

(** * Further properties of the server *)

(** ** Templates in which no token occurs, and formatting twice *)

Lemma firstMatch_In rules s tok rep :
  Spec.firstMatch rules s = Some (tok, rep) ->
  In (tok, rep) rules /\ JS.startsWith tok s = true.
Proof.
  induction rules as [|[t r] rules IH]; [discriminate|].
  cbn [Spec.firstMatch]. destruct (JS.startsWith t s) eqn:E.
  - intros H. injection H as <- <-. split; [now left | exact E].
  - intros H. destruct (IH H) as [Hin Hs]. split; [now right | exact Hs].
Qed.

Lemma hasTokenAt_other c r : tokenLetter c = false -> hasTokenAt (String c r) = false.
Proof.
  intros Hc. unfold tokenLetter in Hc.
  repeat (apply orb_false_iff in Hc as [Hc ?]).
  unfold hasTokenAt, tokens. cbn [existsb JS.startsWith].
  rewrite !(Ascii.eqb_sym _ c).
  repeat match goal with H : Ascii.eqb c _ = false |- _ => rewrite H; clear H end.
  reflexivity.
Qed.

Lemma heads_startsWith a tk x : heads a x = false -> JS.startsWith (String a tk) x = false.
Proof.
  destruct x as [|c x]; [reflexivity|]. unfold heads. cbn [JS.startsWith].
  rewrite andb_true_r. now intros ->.
Qed.

(** Where no token occurs at [c :: r], none occurs at [c :: x] for an [x]
    that begins with a token letter only if [r] does. *)
Lemma hasTokenAt_transfer c r x :
  hasTokenAt (String c r) = false ->
  (forall a, tokenLetter a = true -> heads a r = false -> heads a x = false) ->
  hasTokenAt (String c x) = false.
Proof.
  unfold hasTokenAt, tokens. cbn [existsb]. intros H Hx.
  repeat (apply orb_false_iff in H as [? H]). clear H.
  assert (Hyy : JS.startsWith "YY" (String c x) = false)
    by (apply (no_match_transfer "Y" c r x); auto).
  assert (Hy4 : JS.startsWith "YYYY" (String c x) = false).
  { rewrite startsWith2 in Hyy.
    change (JS.startsWith "YYYY" (String c x))
      with (Ascii.eqb "Y" c && JS.startsWith "YYY" x).
    destruct (Ascii.eqb "Y" c); [cbn [andb] in *|reflexivity].
    now apply heads_startsWith. }
  rewrite Hy4, Hyy.
  rewrite !no_match_transfer with (r := r) (x := x) by auto.
  reflexivity.
Qed.

Section TokenOccurrences.

Variables year month day hour minute second : string.
Hypothesis Hyear : inert year.
Hypothesis Hmonth : inert month.
Hypothesis Hday : inert day.
Hypothesis Hhour : inert hour.
Hypothesis Hminute : inert minute.
Hypothesis Hsecond : inert second.

Let rules := Spec.tokenRules year month day hour minute second.

Lemma firstMatch_hasTokenAt s :
  Spec.firstMatch rules s = None <-> hasTokenAt s = false.
Proof.
  unfold rules, Spec.tokenRules, hasTokenAt, tokens. cbn [Spec.firstMatch existsb].
  repeat match goal with
  | |- context [JS.startsWith ?t s] => destruct (JS.startsWith t s)
  end; cbn [orb]; split; intros H; congruence.
Qed.

(** What a rule puts in is inert, and its token begins with a token
    letter. *)
Lemma rule_shape tok rep :
  In (tok, rep) rules ->
  inert rep /\ exists a tk, tok = String a tk /\ tokenLetter a = true.
Proof.
  unfold rules, Spec.tokenRules. cbn [In].
  intros H.
  repeat (destruct H as [H|H];
          [injection H as <- <-; split; [|eexists _, _; split; reflexivity]|]);
    try assumption; [|contradiction].
  now apply lastTwo_inert.
Qed.

Lemma heads_scan a s :
  tokenLetter a = true -> heads a s = false ->
  heads a (Spec.substituteTokens rules s) = false.
Proof.
  intros Ha Hs. destruct s as [|c s]; [reflexivity|].
  unfold Spec.substituteTokens. rewrite scanFrom_O.
  destruct (Spec.firstMatch rules (String c s)) as [[tok rep]|] eqn:E.
  - apply firstMatch_In in E as [Hin _]. apply rule_shape in Hin as [Hrep _].
    rewrite heads_app by apply Hrep. now apply inert_heads.
  - exact Hs.
Qed.

Lemma tokenFree_inert_app d x :
  allChars (fun c => negb (tokenLetter c)) d = true ->
  tokenFree x = true -> tokenFree (d +:+ x) = true.
Proof.
  intros Hd Hx. induction d as [|c d IH]; [exact Hx|].
  simpl in Hd. apply andb_true_iff in Hd as [Hc Hd]. apply negb_true_iff in Hc.
  rewrite app_String. cbn [tokenFree].
  now rewrite hasTokenAt_other, IH.
Qed.

(** A template without tokens is the scan of itself. *)
Lemma scan_tokenFree s :
  tokenFree s = true -> Spec.substituteTokens rules s = s.
Proof.
  induction s as [|c s IH]; [reflexivity|].
  cbn [tokenFree]. intros H. apply andb_true_iff in H as [Hc Hs].
  apply negb_true_iff in Hc.
  rewrite scan_copy by now apply firstMatch_hasTokenAt.
  now rewrite IH.
Qed.

(** Conversely a scan that changes nothing met no token. *)
Lemma scan_fixed_tokenFree s :
  Spec.substituteTokens rules s = s -> tokenFree s = true.
Proof.
  induction s as [|c s IH]; [reflexivity|].
  destruct (Spec.firstMatch rules (String c s)) as [[tok rep]|] eqn:E.
  - intros H. exfalso.
    destruct (firstMatch_In _ _ _ _ E) as [Hin Hst].
    destruct (rule_shape _ _ Hin) as [Hrep (a & tk & -> & Ha)].
    destruct (startsWith_true _ _ Hst) as [r Hr].
    rewrite Hr in E, H. rewrite (scan_match rules a tk rep r E) in H.
    assert (Hh : heads a (rep +:+ Spec.substituteTokens rules r) = false)
      by (rewrite heads_app by apply Hrep; now apply inert_heads).
    rewrite H in Hh. unfold heads in Hh. rewrite app_String in Hh.
    cbn [JS.startsWith] in Hh. now rewrite Ascii.eqb_refl in Hh.
  - rewrite scan_copy by exact E. intros H. injection H as H.
    cbn [tokenFree]. rewrite (IH H), andb_true_r.
    apply negb_true_iff. now apply firstMatch_hasTokenAt.
Qed.

(** No token is left in what the scan returns. *)
Lemma scan_output_tokenFree s :
  tokenFree (Spec.substituteTokens rules s) = true.
Proof.
  remember (String.length s) as n eqn:Hn. revert s Hn.
  induction n as [n IH] using lt_wf_ind. intros s Hn.
  destruct s as [|c s]; [reflexivity|].
  destruct (Spec.firstMatch rules (String c s)) as [[tok rep]|] eqn:E.
  - destruct (firstMatch_In _ _ _ _ E) as [Hin Hst].
    destruct (rule_shape _ _ Hin) as [Hrep (a & tk & -> & Ha)].
    destruct (startsWith_true _ _ Hst) as [r Hr].
    rewrite Hr in E |- *. rewrite (scan_match rules a tk rep r E).
    apply tokenFree_inert_app; [apply Hrep|].
    apply (IH (String.length r)); [|reflexivity].
    rewrite Hn, Hr, length_app_s. simpl. lia.
  - rewrite scan_copy by exact E. cbn [tokenFree].
    rewrite (IH (String.length s)) by (subst n; simpl; lia || reflexivity).
    rewrite andb_true_r. apply negb_true_iff.
    apply firstMatch_hasTokenAt in E.
    apply (hasTokenAt_transfer c s); [exact E|].
    intros a Ha Hs. now apply heads_scan.
Qed.

End TokenOccurrences.

(** ** The local renderings written out *)

Lemma app_empty_r s : s +:+ "" = s.
Proof. induction s as [|c s IH]; [reflexivity|]. now rewrite app_String, IH. Qed.

Lemma app_assoc_s s t u : (s +:+ t) +:+ u = s +:+ (t +:+ u).
Proof.
  induction s as [|c s IH]; [reflexivity|].
  now rewrite !app_String, IH.
Qed.

(** Decide the comparisons of the [switch] on a literal selector. *)
Ltac literal_selector :=
  unfold formatDateTime;
  repeat match goal with
  | |- context [String.eqb ?a ?b] =>
      let v := eval vm_compute in (String.eqb a b) in
      change (String.eqb a b) with v
  end;
  cbv iota.

Lemma formatCustomDate_throw rt date template tz :
  timeZoneOffset rt tz = None ->
  formatCustomDate rt date template tz = Throw (invalidTimeZoneMessage rt tz).
Proof.
  intros Hz. unfold formatCustomDate, construct. cbn [timeZone]. now rewrite Hz.
Qed.

Lemma formatDateTime_custom rt cfg date tz :
  formatDateTime rt cfg date "custom" tz =
  formatCustomDate rt date (DATE_FORMAT_STRING cfg) tz.
Proof. literal_selector. reflexivity. Qed.

Lemma formatDateTime_date rt cfg date tz off :
  timeZoneOffset rt tz = Some off ->
  formatDateTime rt cfg date "date" tz =
  Normal (JS.toString (yearOfEra (Calendar.YearFromTime (date + off date))) +:+ "-" +:+
          pad2 (Calendar.MonthFromTime (date + off date) + 1) +:+ "-" +:+
          pad2 (Calendar.DateFromTime (date + off date))).
Proof.
  intros Hz. literal_selector.
  unfold toLocaleDateString, toLocaleString, construct.
  cbn [timeZone onlyTimeZone]. rewrite Hz. cbn [bindC]. f_equal.
  rewrite <- (app_empty_r (pad2 (Calendar.DateFromTime (date + off date)))).
  reflexivity.
Qed.

Lemma formatDateTime_time rt cfg date tz off :
  timeZoneOffset rt tz = Some off ->
  formatDateTime rt cfg date "time" tz =
  Normal (pad2 (Spec.hourOfCycle (hourCycle24 rt) (Calendar.HourFromTime (date + off date)))
          +:+ ":" +:+ pad2 (Calendar.MinFromTime (date + off date))
          +:+ ":" +:+ pad2 (Calendar.SecFromTime (date + off date))).
Proof.
  intros Hz. literal_selector.
  unfold toLocaleTimeString, toLocaleString, construct.
  cbn [timeZone onlyTimeZone]. rewrite Hz. cbn [bindC]. f_equal.
  rewrite <- (app_empty_r (pad2 (Calendar.SecFromTime (date + off date)))).
  reflexivity.
Qed.

Lemma formatDateTime_human rt cfg date tz off :
  timeZoneOffset rt tz = Some off ->
  formatDateTime rt cfg date "human" tz =
  Normal (weekdayShort (Calendar.WeekDay (date + off date)) +:+ ", " +:+
          monthShort (Calendar.MonthFromTime (date + off date)) +:+ " " +:+
          JS.toString (Calendar.DateFromTime (date + off date)) +:+ ", " +:+
          JS.toString (yearOfEra (Calendar.YearFromTime (date + off date))) +:+ ", " +:+
          pad2 (if Calendar.HourFromTime (date + off date) mod 12 =? 0 then 12
                else Calendar.HourFromTime (date + off date) mod 12) +:+ ":" +:+
          pad2 (Calendar.MinFromTime (date + off date)) +:+ ":" +:+
          pad2 (Calendar.SecFromTime (date + off date)) +:+
          dayPeriodSeparator rt +:+
          (if Calendar.HourFromTime (date + off date) <? 12 then "AM" else "PM")).
Proof.
  intros Hz. literal_selector.
  unfold toLocaleString, construct.
  cbn [timeZone onlyTimeZone]. rewrite Hz. cbn [bindC]. f_equal.
  rewrite <- (app_empty_r (if Calendar.HourFromTime (date + off date) <? 12 then "AM" else "PM")).
  reflexivity.
Qed.

Lemma formatDateTime_zone_throw rt cfg date format tz :
  timeZoneOffset rt tz = None -> usesZone format = true ->
  formatDateTime rt cfg date format tz = Throw (invalidTimeZoneMessage rt tz).
Proof.
  intros Hz Hu. pose proof (formatDateTime_zone rt cfg date format tz Hu) as H.
  now rewrite Hz in H.
Qed.

(** ** X1: the local selectors see the wall clock only *)

(** X1.  Two requests whose instants fall on the same local time in
    their zones (instant plus offset) get the same string from each of
    [human], [date], [time] and [custom]. *)
Theorem local_selectors_depend_on_local_time
    (rt : Runtime) (cfg : Config) (format tz1 tz2 : string)
    (off1 off2 : Z -> Z) (date1 date2 : Z) :
  timeZoneOffset rt tz1 = Some off1 ->
  timeZoneOffset rt tz2 = Some off2 ->
  date1 + off1 date1 = date2 + off2 date2 ->
  In format Spec.localSelectors ->
  formatDateTime rt cfg date1 format tz1 = formatDateTime rt cfg date2 format tz2.
Proof.
  intros H1 H2 He Hin. simpl in Hin.
  destruct Hin as [<-|[<-|[<-|[<-|[]]]]].
  - now rewrite (formatDateTime_human _ _ _ _ _ H1), (formatDateTime_human _ _ _ _ _ H2), He.
  - now rewrite (formatDateTime_date _ _ _ _ _ H1), (formatDateTime_date _ _ _ _ _ H2), He.
  - now rewrite (formatDateTime_time _ _ _ _ _ H1), (formatDateTime_time _ _ _ _ _ H2), He.
  - rewrite !formatDateTime_custom.
    now rewrite (formatCustomDate_passes _ _ _ _ _ H1),
      (formatCustomDate_passes _ _ _ _ _ H2), He.
Qed.

Lemma local_selectors_depend_on_local_time_witness :
  timeZoneOffset node20 "Asia/Tokyo" = Some (fun _ => 9 * Calendar.msPerHour)
  /\ timeZoneOffset node20 "UTC" = Some (fun _ => 0)
  /\ formatDateTime node20 defaultConfig 1705314600000 "human" "Asia/Tokyo" =
     formatDateTime node20 defaultConfig 1705347000000 "human" "UTC".
Proof.
  split; [reflexivity|]. split; [reflexivity|].
  apply (local_selectors_depend_on_local_time node20 defaultConfig "human"
           "Asia/Tokyo" "UTC" (fun _ => 9 * Calendar.msPerHour) (fun _ => 0));
    [reflexivity | reflexivity | reflexivity | simpl; auto].
Defined.

(** ** X2, X3: the custom formatter against [date] and [time] *)

Lemma scan_ymd y mo d h mi s :
  Spec.substituteTokens (Spec.tokenRules y mo d h mi s) "YYYY-MM-DD" =
  y +:+ "-" +:+ mo +:+ "-" +:+ d +:+ "".
Proof. reflexivity. Qed.

Lemma scan_hms y mo d h mi s :
  Spec.substituteTokens (Spec.tokenRules y mo d h mi s) "HH:mm:ss" =
  h +:+ ":" +:+ mi +:+ ":" +:+ s +:+ "".
Proof. reflexivity. Qed.

Lemma scan_default y mo d h mi s :
  Spec.substituteTokens (Spec.tokenRules y mo d h mi s) "YYYY-MM-DD HH:mm:ss" =
  y +:+ "-" +:+ mo +:+ "-" +:+ d +:+ " " +:+ h +:+ ":" +:+ mi +:+ ":" +:+ s +:+ "".
Proof. reflexivity. Qed.

(** X2.  Whatever the instant and the zone, resolvable or not, the custom
    formatter on the template "YYYY-MM-DD" returns or throws what the
    [date] selector does, and on "HH:mm:ss" what the [time] selector
    does. *)
Theorem custom_templates_of_date_and_time
    (rt : Runtime) (cfg : Config) (date : Z) (tz : string) :
  formatCustomDate rt date "YYYY-MM-DD" tz = formatDateTime rt cfg date "date" tz
  /\ formatCustomDate rt date "HH:mm:ss" tz = formatDateTime rt cfg date "time" tz.
Proof.
  destruct (timeZoneOffset rt tz) as [off|] eqn:Hz.
  - rewrite !(formatCustomDate_passes _ _ _ _ _ Hz).
    rewrite (formatDateTime_date _ _ _ _ _ Hz), (formatDateTime_time _ _ _ _ _ Hz).
    rewrite scan_ymd, scan_hms, !app_empty_r. split; reflexivity.
  - rewrite !(formatCustomDate_throw _ _ _ _ Hz).
    rewrite !(formatDateTime_zone_throw _ _ _ _ _ Hz) by reflexivity.
    split; reflexivity.
Qed.

(** X3.  With [DATE_FORMAT_STRING] unset or empty in the environment, the
    [custom] selector on a resolvable zone returns the string of [date],
    a space, and the string of [time]. *)
Theorem default_template_is_date_then_time
    (rt : Runtime) (env : gmap string string) (date : Z) (tz : string) (off : Z -> Z) :
  timeZoneOffset rt tz = Some off ->
  Spec.nonEmpty (env !! "DATE_FORMAT_STRING") = None ->
  exists d t : string,
    formatDateTime rt (loadConfig rt env) date "date" tz = Normal d
    /\ formatDateTime rt (loadConfig rt env) date "time" tz = Normal t
    /\ formatDateTime rt (loadConfig rt env) date "custom" tz = Normal (d +:+ " " +:+ t).
Proof.
  intros Hz He.
  assert (Ht : DATE_FORMAT_STRING (loadConfig rt env) = "YYYY-MM-DD HH:mm:ss").
  { unfold loadConfig, Spec.nonEmpty, JS.or_else in *. cbn [DATE_FORMAT_STRING].
    destruct (env !! "DATE_FORMAT_STRING") as [[|c s]|]; try reflexivity.
    discriminate. }
  eexists _, _. split; [apply (formatDateTime_date _ _ _ _ _ Hz)|].
  split; [apply (formatDateTime_time _ _ _ _ _ Hz)|].
  rewrite formatDateTime_custom, Ht, (formatCustomDate_passes _ _ _ _ _ Hz).
  rewrite scan_default, app_empty_r, !app_assoc_s. reflexivity.
Qed.

Lemma default_template_is_date_then_time_witness :
  timeZoneOffset node20 "America/Phoenix" = Some (fun _ => -7 * Calendar.msPerHour)
  /\ Spec.nonEmpty (dockerEnv !! "DATE_FORMAT_STRING") = None
  /\ formatDateTime node20 (loadConfig node20 dockerEnv) 1705314600000 "custom"
       "America/Phoenix" = Normal ("2024-01-15" +:+ " " +:+ "03:30:00").
Proof.
  split; [reflexivity|]. split; [reflexivity|].
  destruct (default_template_is_date_then_time node20 dockerEnv 1705314600000
              "America/Phoenix" (fun _ => -7 * Calendar.msPerHour) eq_refl eq_refl)
    as (d & t & Hd & Ht & Hc).
  rewrite Hc. f_equal.
  assert (Ed : d = "2024-01-15") by (vm_compute in Hd; congruence).
  assert (Et : t = "03:30:00") by (vm_compute in Ht; congruence).
  now rewrite Ed, Et.
Defined.

(** ** X4, X5: formatting a formatted string; templates without tokens *)

(** X4.  What the custom formatter returns holds no token any more, and
    given to the formatter as a template, for the same instant and zone,
    it comes back unchanged. *)
Theorem formatCustomDate_idempotent
    (rt : Runtime) (date : Z) (template tz out : string) :
  formatCustomDate rt date template tz = Normal out ->
  tokenFree out = true /\ formatCustomDate rt date out tz = Normal out.
Proof.
  intros H. destruct (timeZoneOffset rt tz) as [off|] eqn:Hz.
  - rewrite (formatCustomDate_passes _ _ _ _ _ Hz) in H. injection H as <-.
    split.
    + apply scan_output_tokenFree; apply toString_inert || apply pad2_inert.
    + rewrite (formatCustomDate_passes _ _ _ _ _ Hz). f_equal.
      apply scan_tokenFree.
      apply scan_output_tokenFree; apply toString_inert || apply pad2_inert.
  - rewrite (formatCustomDate_throw _ _ _ _ Hz) in H. discriminate.
Qed.

Lemma formatCustomDate_idempotent_witness :
  formatCustomDate node20 1705314600000 "YYYYY-YYY MMM" "UTC" = Normal "2024Y-24Y 01M"
  /\ formatCustomDate node20 1705314600000 "2024Y-24Y 01M" "UTC" = Normal "2024Y-24Y 01M".
Proof.
  split; [reflexivity|].
  apply (formatCustomDate_idempotent node20 1705314600000 "YYYYY-YYY MMM" "UTC").
  reflexivity.
Defined.

(** X5.  On a resolvable zone the custom formatter returns the template
    itself exactly when none of the seven tokens occurs in it: single
    letters, lower-case [yyyy] or [dd], upper-case [SS] and the empty
    template are left alone, and a template with a token is never
    returned as it is. *)
Theorem formatCustomDate_unchanged_iff
    (rt : Runtime) (date : Z) (template tz : string) (off : Z -> Z) :
  timeZoneOffset rt tz = Some off ->
  (formatCustomDate rt date template tz = Normal template <->
   tokenFree template = true).
Proof.
  intros Hz. rewrite (formatCustomDate_passes _ _ _ _ _ Hz). split.
  - intros H. injection H as H.
    apply scan_fixed_tokenFree in H; [exact H|..];
      apply toString_inert || apply pad2_inert.
  - intros H. f_equal. now apply scan_tokenFree.
Qed.

Lemma formatCustomDate_unchanged_iff_witness :
  timeZoneOffset node20 "UTC" = Some (fun _ => 0)
  /\ formatCustomDate node20 1705314600000 "yyyy-dd h:M:S (Y)" "UTC" =
       Normal "yyyy-dd h:M:S (Y)"
  /\ formatCustomDate node20 1705314600000 "" "UTC" = Normal "".
Proof.
  split; [reflexivity|].
  split; apply (formatCustomDate_unchanged_iff node20 1705314600000 _ "UTC"
                  (fun _ => 0) eq_refl); reflexivity.
Defined.

(** ** X6: the tools listed are the tools handled *)

Lemma get_timestamp_unfold rt cfg args now :
  handleCallTool rt cfg "get_timestamp" args now =
  {| text := JS.toString
       (if String.eqb (JS.or_else (getArg args "unit") "seconds") "milliseconds"
        then now else now / 1000);
     isError := false |}.
Proof. reflexivity. Qed.

(** X6.  A tool call is answered with the "Unknown tool" error, which
    names the tool asked for, exactly when its name is not one of those
    the list handler advertises. *)
Theorem listed_tools_are_the_handled_ones
    (rt : Runtime) (cfg : Config) (name : string)
    (args : option (gmap string string)) (now : Z) :
  In name (map toolName (handleListTools cfg)) <->
  handleCallTool rt cfg name args now <> unknownTool name.
Proof.
  cbn [handleListTools map toolName GET_CURRENT_TIME_TOOL GET_TIMESTAMP_TOOL In].
  split.
  - intros [<-|[<-|[]]].
    + rewrite get_current_time_unfold.
      destruct (formatDateTime rt cfg now _ _) as [s|m]; cbn [caught];
        intros H; inversion H.
    + rewrite get_timestamp_unfold. intros H. inversion H.
  - intros H.
    destruct (String.eqb name "get_current_time") eqn:E1;
      [apply String.eqb_eq in E1; auto|].
    destruct (String.eqb name "get_timestamp") eqn:E2;
      [apply String.eqb_eq in E2; auto|].
    exfalso. apply H. unfold handleCallTool. now rewrite E1, E2.
Qed.

(** ** X7: an empty argument is an absent argument *)

(** X7.  For every tool, setting an argument to the empty string gives
    the result of leaving that argument out, and a call without an
    argument record gives the result of a call with an empty record. *)
Theorem empty_argument_is_absent
    (rt : Runtime) (cfg : Config) (name key : string)
    (a : gmap string string) (now : Z) :
  handleCallTool rt cfg name (Some (<[key := ""]> a)) now =
    handleCallTool rt cfg name (Some (delete key a)) now
  /\ handleCallTool rt cfg name None now = handleCallTool rt cfg name (Some ∅) now.
Proof.
  assert (H : forall k d,
             JS.or_else (getArg (Some (<[key := ""]> a)) k) d =
             JS.or_else (getArg (Some (delete key a)) k) d).
  { intros k d. cbn [getArg]. destruct (decide (key = k)) as [->|Hne].
    - now rewrite lookup_insert_eq, lookup_delete_eq.
    - now rewrite lookup_insert_ne, lookup_delete_ne by exact Hne. }
  split.
  - unfold handleCallTool, effectiveFormat, effectiveTimezone. now rewrite !H.
  - unfold handleCallTool, effectiveFormat, effectiveTimezone. cbn [getArg].
    now rewrite !lookup_empty.
Qed.

(** ** X8: the configuration is never empty *)

Lemma or_else_nonempty a b : b <> "" -> JS.or_else a b <> "".
Proof. intros Hb. destruct a as [[|c s]|]; cbn [JS.or_else]; congruence. Qed.

(** X8.  Whatever the environment and the arguments, the default format,
    the template and the effective format are not the empty string; when
    the host's zone is not empty, neither are the default and the
    effective time zone.  So no empty selector or template reaches
    [formatDateTime], and no empty zone on such a host. *)
Theorem configuration_is_never_empty
    (rt : Runtime) (env : gmap string string) (args : option (gmap string string)) :
  DATETIME_FORMAT (loadConfig rt env) <> ""
  /\ DATE_FORMAT_STRING (loadConfig rt env) <> ""
  /\ effectiveFormat (loadConfig rt env) args <> ""
  /\ (hostTimeZone rt <> "" ->
      TIMEZONE (loadConfig rt env) <> ""
      /\ effectiveTimezone (loadConfig rt env) args <> "").
Proof.
  unfold effectiveFormat, effectiveTimezone, loadConfig.
  cbn [DATETIME_FORMAT DATE_FORMAT_STRING TIMEZONE].
  split; [apply or_else_nonempty; discriminate|].
  split; [apply or_else_nonempty; discriminate|].
  split; [repeat apply or_else_nonempty; discriminate|].
  intros Hh. split; repeat apply or_else_nonempty; exact Hh.
Qed.

Lemma configuration_is_never_empty_witness :
  effectiveFormat
    (loadConfig node20 {[ "DATETIME_FORMAT" := ""; "TIMEZONE" := "" ]})
    (Some {[ "format" := "" ]}) = "iso"
  /\ effectiveTimezone
       (loadConfig node20 {[ "DATETIME_FORMAT" := ""; "TIMEZONE" := "" ]})
       (Some {[ "timezone" := "" ]}) <> "".
Proof.
  destruct (configuration_is_never_empty node20
              {[ "DATETIME_FORMAT" := ""; "TIMEZONE" := "" ]}
              (Some {[ "timezone" := "" ]})) as (_ & _ & _ & Hz).
  split; [vm_compute; reflexivity|].
  apply Hz. discriminate.
Defined.

(** ** X9: the two tools agree *)

Lemma unit_selects (args : option (gmap string string)) (now : Z) :
  (if String.eqb (JS.or_else (getArg args "unit") "seconds") "milliseconds"
   then now else now / 1000) =
  (if decide (getArg args "unit" = Some "milliseconds") then now else now / 1000).
Proof.
  destruct (getArg args "unit") as [u|] eqn:E.
  - destruct (decide (Some u = Some "milliseconds")) as [Heq|Hne].
    + injection Heq as ->. reflexivity.
    + destruct u as [|c u]; [reflexivity|]. cbn [JS.or_else].
      destruct (String.eqb (String c u) "milliseconds") eqn:Eq; [|reflexivity].
      apply String.eqb_eq in Eq. congruence.
  - destruct (decide (None = Some "milliseconds")); [discriminate | reflexivity].
Qed.

(** X9.  For the same instant, [get_timestamp] returns the result of
    [get_current_time] under the format [unix_ms] when its unit is
    "milliseconds", and under the format [unix] for every other unit,
    whatever the time zone of that request. *)
Theorem get_timestamp_agrees_with_unix_formats
    (rt : Runtime) (cfg : Config)
    (args1 args2 : option (gmap string string)) (now : Z) :
  effectiveFormat cfg args2 =
    (if decide (getArg args1 "unit" = Some "milliseconds") then "unix_ms" else "unix") ->
  handleCallTool rt cfg "get_timestamp" args1 now =
  handleCallTool rt cfg "get_current_time" args2 now.
Proof.
  intros Hf. rewrite get_timestamp_unfold, get_current_time_unfold, Hf.
  rewrite unit_selects.
  destruct (decide (getArg args1 "unit" = Some "milliseconds")); reflexivity.
Qed.

Lemma get_timestamp_agrees_with_unix_formats_witness :
  handleCallTool node20 defaultConfig "get_timestamp"
    (Some {[ "unit" := "milliseconds" ]}) 1705314600123 =
  handleCallTool node20 defaultConfig "get_current_time"
    (Some {[ "format" := "unix_ms"; "timezone" := "Not/AZone" ]}) 1705314600123.
Proof.
  apply (get_timestamp_agrees_with_unix_formats node20 defaultConfig
           (Some {[ "unit" := "milliseconds" ]})
           (Some {[ "format" := "unix_ms"; "timezone" := "Not/AZone" ]})).
  reflexivity.
Defined.

(** ** X10, X11: what [date], [time] and [human] write *)

(** X10.  On a resolvable zone, [date] returns the year of the local
    date without padding (four digits for the years 1000..9999), a
    hyphen, the two-digit month 01..12, a hyphen and the two-digit day
    01..31; [time] returns the two-digit hour as the runtime's cycle
    counts it, a colon, the two-digit minute 00..59, a colon and the
    two-digit second 00..59. *)
Theorem date_and_time_shape
    (rt : Runtime) (cfg : Config) (date : Z) (tz : string) (off : Z -> Z) :
  timeZoneOffset rt tz = Some off ->
  let lt := date + off date in
  let y := yearOfEra (Calendar.YearFromTime lt) in
  let mo := Calendar.MonthFromTime lt + 1 in
  let d := Calendar.DateFromTime lt in
  let h := Spec.hourOfCycle (hourCycle24 rt) (Calendar.HourFromTime lt) in
  let mi := Calendar.MinFromTime lt in
  let s := Calendar.SecFromTime lt in
  formatDateTime rt cfg date "date" tz =
    Normal (JS.toString y +:+ "-" +:+ Spec.twoDigits mo +:+ "-" +:+ Spec.twoDigits d)
  /\ formatDateTime rt cfg date "time" tz =
    Normal (Spec.twoDigits h +:+ ":" +:+ Spec.twoDigits mi +:+ ":" +:+ Spec.twoDigits s)
  /\ 1 <= y /\ 1 <= mo <= 12 /\ 1 <= d <= 31 /\ 0 <= h <= 24
  /\ 0 <= mi <= 59 /\ 0 <= s <= 59
  /\ (1000 <= y <= 9999 -> JS.toString y = Spec.fourDigits y).
Proof.
  intros Hz lt y mo d h mi s.
  pose proof (MonthFromTime_range lt) as Hmo.
  pose proof (DateFromTime_range lt) as Hd.
  pose proof (hourOfCycle_range (hourCycle24 rt) _ (HourFromTime_range lt)) as Hh.
  pose proof (MinFromTime_range lt) as Hmi.
  pose proof (SecFromTime_range lt) as Hs.
  assert (Hy : 1 <= y)
    by (unfold y, yearOfEra; destruct (Z.ltb_spec 0 (Calendar.YearFromTime lt)); lia).
  split.
  { rewrite (formatDateTime_date _ _ _ _ _ Hz). fold lt. fold y mo d.
    now rewrite !pad2_twoDigits by (subst mo d; lia). }
  split.
  { rewrite (formatDateTime_time _ _ _ _ _ Hz). fold lt. fold h mi s.
    now rewrite !pad2_twoDigits by (subst h mi s; lia). }
  repeat (split; [subst mo d h mi s; lia|]).
  intros Hr. apply toString_fourDigits. lia.
Qed.

Lemma date_and_time_shape_witness :
  timeZoneOffset node20 "Asia/Tokyo" = Some (fun _ => 9 * Calendar.msPerHour)
  /\ formatDateTime node20 defaultConfig 1705314600000 "date" "Asia/Tokyo" =
       Normal "2024-01-15"
  /\ formatDateTime node20 defaultConfig 1705314600000 "time" "Asia/Tokyo" =
       Normal "19:30:00".
Proof.
  split; [reflexivity|].
  destruct (date_and_time_shape node20 defaultConfig 1705314600000 "Asia/Tokyo"
              (fun _ => 9 * Calendar.msPerHour) eq_refl) as (Hd & Ht & _).
  split; [rewrite Hd | rewrite Ht]; reflexivity.
Defined.



(** ** X12: [iso] against [date] and [time] at offset zero *)

Lemma yearOfEra_positive y : 0 < y -> yearOfEra y = y.
Proof. intros H. unfold yearOfEra. destruct (Z.ltb_spec 0 y); lia. Qed.

(** X12.  In a zone whose offset at the instant is zero, for an instant
    in the years 1000..9999 that is not in the first hour of the day, or
    on a runtime with the [h23] cycle, the [iso] string is the string of
    [date], a "T", the string of [time], a dot, the three-digit
    milliseconds and "Z". *)
Theorem iso_is_date_T_time_at_offset_zero
    (rt : Runtime) (cfg : Config) (date : Z) (tz : string) (off : Z -> Z) :
  timeZoneOffset rt tz = Some off ->
  off date = 0 ->
  1000 <= Calendar.YearFromTime date <= 9999 ->
  hourCycle24 rt = h23 \/ Calendar.HourFromTime date <> 0 ->
  exists d t : string,
    formatDateTime rt cfg date "date" tz = Normal d
    /\ formatDateTime rt cfg date "time" tz = Normal t
    /\ formatDateTime rt cfg date "iso" tz =
         Normal (d +:+ "T" +:+ t +:+ "." +:+
                 Spec.threeDigits (Calendar.msFromTime date) +:+ "Z").
Proof.
  intros Hz H0 Hy Hc.
  eexists _, _. split; [apply (formatDateTime_date _ _ _ _ _ Hz)|].
  split; [apply (formatDateTime_time _ _ _ _ _ Hz)|].
  rewrite H0, Z.add_0_r.
  assert (Hh : Spec.hourOfCycle (hourCycle24 rt) (Calendar.HourFromTime date) =
               Calendar.HourFromTime date).
  { destruct Hc as [->|Hn]; [reflexivity|].
    destruct (hourCycle24 rt); [reflexivity|]. cbn [Spec.hourOfCycle].
    destruct (Z.eqb_spec (Calendar.HourFromTime date) 0); [contradiction|reflexivity]. }
  rewrite Hh, yearOfEra_positive by lia.
  literal_selector. f_equal. unfold Date_.toISOString, Date_.isoYear.
  destruct (Z.leb_spec 0 (Calendar.YearFromTime date)); [|lia].
  destruct (Z.leb_spec (Calendar.YearFromTime date) 9999); [|lia].
  cbn [andb].
  rewrite pad4_fourDigits, toString_fourDigits by lia.
  rewrite pad3_threeDigits by (pose proof (msFromTime_range date); lia).
  change (Date_.pad 2) with pad2.
  rewrite !app_assoc_s. reflexivity.
Qed.

Lemma iso_is_date_T_time_at_offset_zero_witness :
  timeZoneOffset node20 "UTC" = Some (fun _ => 0)
  /\ formatDateTime node20 defaultConfig 1705314600123 "iso" "UTC" =
       Normal ("2024-01-15" +:+ "T" +:+ "10:30:00" +:+ "." +:+ "123" +:+ "Z").
Proof.
  split; [reflexivity|].
  assert (Hy : 1000 <= Calendar.YearFromTime 1705314600123 <= 9999)
    by (vm_compute; split; discriminate).
  assert (Hc : hourCycle24 node20 = h23 \/ Calendar.HourFromTime 1705314600123 <> 0)
    by (right; vm_compute; discriminate).
  destruct (iso_is_date_T_time_at_offset_zero node20 defaultConfig 1705314600123
              "UTC" (fun _ => 0) eq_refl eq_refl Hy Hc) as (d & t & Hd & Ht & Hi).
  rewrite Hi.
  assert (Ed : d = "2024-01-15") by (vm_compute in Hd; congruence).
  assert (Et : t = "10:30:00") by (vm_compute in Ht; congruence).
  now rewrite Ed, Et.
Defined.

(** ** X13: the arguments the handler reads *)

(** X13.  For every tool name, two argument records that agree on
    [format], [timezone] and [unit] get the same result: no other field
    of the arguments is read, whatever the selector. *)
Theorem handler_reads_three_arguments
    (rt : Runtime) (cfg : Config) (name : string)
    (args1 args2 : option (gmap string string)) (now : Z) :
  getArg args1 "format" = getArg args2 "format" ->
  getArg args1 "timezone" = getArg args2 "timezone" ->
  getArg args1 "unit" = getArg args2 "unit" ->
  handleCallTool rt cfg name args1 now = handleCallTool rt cfg name args2 now.
Proof.
  intros Hf Hz Hu. unfold handleCallTool, effectiveFormat, effectiveTimezone.
  now rewrite Hf, Hz, Hu.
Qed.

Lemma handler_reads_three_arguments_witness :
  handleCallTool node20 defaultConfig "get_current_time"
    (Some {[ "format" := "date"; "locale" := "fr-FR"; "template" := "DD/MM" ]})
    1705314600000 =
  handleCallTool node20 defaultConfig "get_current_time"
    (Some {[ "format" := "date" ]}) 1705314600000.
Proof.
  apply (handler_reads_three_arguments node20 defaultConfig "get_current_time"
           (Some {[ "format" := "date"; "locale" := "fr-FR"; "template" := "DD/MM" ]})
           (Some {[ "format" := "date" ]}));
    vm_compute; reflexivity.
Defined.
